(** * seller-apis: stock and price synchronisation (seller.py, market.py)

    A shallow embedding of the transform, batching and orchestration code
    of [src/seller.py] and [src/market.py], and the properties of the
    specification checked against it.

    Conventions of the embedding.
    - A Python [str] is the [string] of its UTF-8 bytes.  Splitting on
      ['.'] and the character class [[^0-9]] only inspect ASCII bytes, and
      every byte of a multi-byte UTF-8 sequence is above 127, so both act
      on the bytes exactly as they act on the code points.
    - A spreadsheet row is the dict pandas builds for it: keys to cells.
      A cell is a [str] or an [int]; float cells are outside the model.
      [dict.get] of an absent key is [None].
    - Exceptions are values: a computation returns [Ok v] or [Raise e].
    - An argument list that the callee mutates ([offer_ids]) is returned
      next to the result, and the caller goes on with the returned list.
    - HTTP calls, the spreadsheet download and [print] are events; the
      replies of the outside world are given by an oracle that sees the
      history of events.  [get_offer_ids] and [download_stock] are taken
      whole, as calls that return or raise.
    - The docstrings of [get_product_list] (seller.py:15) and
      [price_conversion] (seller.py:315) start one and two columns deeper
      than the statements after them, which Python rejects when it reads
      the file; each function is modelled as its statements stand. *)

From Stdlib Require Import ZArith List String Ascii Bool Arith Lia Permutation.
From Stdlib Require DecimalString.
From Stdlib Require DecimalPos.
Import ListNotations.

Local Open Scope string_scope.
Local Open Scope list_scope.
Local Open Scope nat_scope.
Local Set Warnings "-register-all".

(** ** Exceptions and results *)

(** The exception classes the two files can meet.  [ConnectTimeout] is a
    subclass of [requests.exceptions.ConnectionError]; [ReadTimeout] is
    not.  [OtherException] stands for every other subclass of
    [Exception]. *)
Inductive exn_class : Type :=
| ReadTimeout
| ConnectTimeout
| ConnectionError
| HTTPError
| ValueError
| TypeError
| AttributeError
| IndexError
| OtherException.

Record exn : Type := Exn { exn_cls : exn_class; exn_arg : string }.

Inductive result (A : Type) : Type :=
| Ok (a : A)
| Raise (e : exn).
Arguments Ok {A} a.
Arguments Raise {A} e.

Definition is_ok {A} (r : result A) : bool :=
  match r with Ok _ => true | Raise _ => false end.

Definition result_bind {A B} (r : result A) (k : A -> result B) : result B :=
  match r with Ok a => k a | Raise e => Raise e end.

(** ** Python values met in the spreadsheet and in the payloads *)

Inductive cell : Type :=
| CStr (s : string)
| CInt (z : Z).

(** One spreadsheet row, [to_dict(orient="records")]. *)
Definition row : Type := list (string * cell).

(** [d.get(key)]: the value, or [None]. *)
Fixpoint dict_get (key : string) (d : row) : option cell :=
  match d with
  | [] => None
  | (k, v) :: d' => if String.eqb k key then Some v else dict_get key d'
  end.

(** The dicts and lists handed to [requests] as JSON payloads. *)
Inductive json : Type :=
| JStr (s : string)
| JInt (z : Z)
| JList (l : list json)
| JDict (d : list (string * json)).

Fixpoint json_get (key : string) (d : list (string * json)) : option json :=
  match d with
  | [] => None
  | (k, v) :: d' => if String.eqb k key then Some v else json_get key d'
  end.

(** [o.get(key)] on a payload value. *)
Definition field (key : string) (o : json) : option json :=
  match o with JDict d => json_get key d | _ => None end.

(** [o.get(key)] when it is a [str], an [int]. *)
Definition str_field (key : string) (o : json) : option string :=
  match field key o with Some (JStr s) => Some s | _ => None end.

Definition int_field (key : string) (o : json) : option Z :=
  match field key o with Some (JInt z) => Some z | _ => None end.

(** [stock.get("items")[0].get("count")] of a market stock record
    (market.py:311). *)
Definition first_item_count (stock : json) : option Z :=
  match field "items" stock with
  | Some (JList (item :: _)) => int_field "count" item
  | _ => None
  end.

(** ** [str] and [int] *)

Definition is_digit (c : ascii) : bool :=
  let n := nat_of_ascii c in (48 <=? n) && (n <=? 57).

Definition digit_value (c : ascii) : Z := Z.of_nat (nat_of_ascii c) - 48.

(** The ASCII characters [str.isspace] accepts. *)
Definition is_space (c : ascii) : bool :=
  let n := nat_of_ascii c in
  ((9 <=? n) && (n <=? 13)) || ((28 <=? n) && (n <=? 32)).

Fixpoint lstrip (l : list ascii) : list ascii :=
  match l with
  | c :: t => if is_space c then lstrip t else l
  | [] => []
  end.

Definition strip (l : list ascii) : list ascii := rev (lstrip (rev (lstrip l))).

(** Decimal digits, single underscores allowed between two digits.
    [prev] tells whether the previous character was a digit. *)
Fixpoint parse_digits (l : list ascii) (acc : Z) (prev : bool) : option Z :=
  match l with
  | [] => if prev then Some acc else None
  | c :: t =>
      if is_digit c then parse_digits t (acc * 10 + digit_value c)%Z true
      else if Ascii.eqb c "_" then
             (if prev then parse_digits t acc false else None)
      else None
  end.

Definition parse_int (l : list ascii) : option Z :=
  match strip l with
  | c :: t =>
      if Ascii.eqb c "+" then parse_digits t 0%Z false
      else if Ascii.eqb c "-" then option_map Z.opp (parse_digits t 0%Z false)
      else parse_digits (c :: t) 0%Z false
  | [] => None
  end.

(** [int(s)] for a [str] of ASCII characters: surrounding white space, an
    optional sign, decimal digits.  A string with a byte above 127 is
    rejected here (CPython also accepts the decimal digits and spaces of
    other scripts); the interpreter's limit on the number of digits is not
    modelled. *)
Definition int_of_str (s : string) : result Z :=
  match parse_int (list_ascii_of_string s) with
  | Some z => Ok z
  | None => Raise (Exn ValueError s)
  end.

(** [str(v)] for [v] the result of a [dict.get]. *)
Definition py_str (v : option cell) : string :=
  match v with
  | None => "None"
  | Some (CStr s) => s
  | Some (CInt z) => DecimalString.NilZero.string_of_int (Z.to_int z)
  end.

(** [int(v)] for [v] the result of a [dict.get]. *)
Definition py_int (v : option cell) : result Z :=
  match v with
  | None => Raise (Exn TypeError "NoneType")
  | Some (CStr s) => int_of_str s
  | Some (CInt z) => Ok z
  end.

(** ** Strings and lists *)

(** [s.split(sep)] for a one-character separator. *)
Fixpoint py_split (sep : ascii) (s : string) : list string :=
  match s with
  | EmptyString => [EmptyString]
  | String c s' =>
      if Ascii.eqb c sep then EmptyString :: py_split sep s'
      else match py_split sep s' with
           | [] => [String c EmptyString]
           | h :: t => String c h :: t
           end
  end.

(** [l[i]] for [0 <= i]. *)
Definition py_index {A} (l : list A) (i : nat) : result A :=
  match nth_error l i with
  | Some a => Ok a
  | None => Raise (Exn IndexError "list index out of range")
  end.

(** [re.sub("[^0-9]", "", s)]. *)
Fixpoint re_sub_non_digits (s : string) : string :=
  match s with
  | EmptyString => EmptyString
  | String c s' =>
      if is_digit c then String c (re_sub_non_digits s')
      else re_sub_non_digits s'
  end.

(** [x in l] for a list of [str]. *)
Definition list_in (x : string) (l : list string) : bool :=
  existsb (String.eqb x) l.

(** [l.remove(x)]: the first occurrence goes; [ValueError] when there is
    none.  The value is the content of [l] after the call. *)
Fixpoint list_remove (x : string) (l : list string) : result (list string) :=
  match l with
  | [] => Raise (Exn ValueError "list.remove(x): x not in list")
  | y :: t =>
      if String.eqb y x then Ok t
      else match list_remove x t with
           | Ok t' => Ok (y :: t')
           | Raise e => Raise e
           end
  end.

(** [lst[i:j]] for [0 <= i <= j]. *)
Definition slice {A} (lst : list A) (i j : nat) : list A :=
  firstn (j - i) (skipn i lst).

(** The values [range(i, stop, step)] runs through for [0 < step]:
    [i], [i + step], ... while below [stop].  [fuel] bounds the number of
    iterations; [stop] iterations are enough (lemma [range_up_fuel]). *)
Fixpoint range_up (fuel i stop step : nat) : list nat :=
  match fuel with
  | 0 => []
  | S fuel' =>
      if i <? stop then i :: range_up fuel' (i + step) stop step else []
  end.

(** ** seller.py: price_conversion and divide *)

(** seller.py:314-335.  [price] is what [watch.get] returned; only a
    [str] has a [split] method.  The value is a [str]. *)
Definition price_conversion (price : option cell) : result string :=
  match price with
  | Some (CStr s) =>
      result_bind (py_index (py_split "." s) 0)
                  (fun head => Ok (re_sub_non_digits head))
  | Some (CInt _) => Raise (Exn AttributeError "'int' object has no attribute 'split'")
  | None => Raise (Exn AttributeError "'NoneType' object has no attribute 'split'")
  end.

(** seller.py:338-361, consumed by [list(...)] as every caller does:
    [range(0, len(lst), n)] raises for [n = 0], is empty for [n < 0]. *)
Definition divide {A} (lst : list A) (n : Z) : result (list (list A)) :=
  if (n =? 0)%Z then Raise (Exn ValueError "range() arg 3 must not be zero")
  else if (n <? 0)%Z then Ok []
  else Ok (map (fun i => slice lst i (i + Z.to_nat n))
               (range_up (List.length lst) 0 (List.length lst) (Z.to_nat n))).

(** ** The stock and price loops

    The loop of [create_stocks] is the same text in seller.py:255-270 and
    market.py:203-243, and the loop of [create_prices] in seller.py:300-311
    and market.py:278-294; the files differ in the dict they append.  The
    loops are written once, over the dict builder. *)

(** Lines 258-264 of seller.py, 207-213 of market.py: the quantity rule. *)
Definition stock_count (watch : row) : result Z :=
  let count := py_str (dict_get "Количество" watch) in
  if String.eqb count ">10" then Ok 100%Z
  else if String.eqb count "1" then Ok 0%Z
  else py_int (dict_get "Количество" watch).

Section Transforms.

(** The dict appended for an offer id and a stock. *)
Variable stock_record : string -> Z -> json.

(** The first loop of [create_stocks].  [stocks] is the list built so
    far; the second component is [offer_ids] when the loop stops. *)
Fixpoint stocks_loop (watch_remnants : list row) (offer_ids : list string)
         (stocks : list json) : result (list json) * list string :=
  match watch_remnants with
  | [] => (Ok stocks, offer_ids)
  | watch :: rest =>
      if list_in (py_str (dict_get "Код" watch)) offer_ids then
        match stock_count watch with
        | Raise e => (Raise e, offer_ids)
        | Ok stock =>
            let stocks' :=
              stocks ++ [stock_record (py_str (dict_get "Код" watch)) stock] in
            match list_remove (py_str (dict_get "Код" watch)) offer_ids with
            | Raise e => (Raise e, offer_ids)
            | Ok offer_ids' => stocks_loop rest offer_ids' stocks'
            end
        end
      else stocks_loop rest offer_ids stocks
  end.

(** [create_stocks]: the first loop, then a zero record for every offer
    id left in the list. *)
Definition create_stocks_with (watch_remnants : list row)
           (offer_ids : list string) : result (list json) * list string :=
  match stocks_loop watch_remnants offer_ids [] with
  | (Ok stocks, offer_ids') =>
      (Ok (stocks ++ map (fun offer_id => stock_record offer_id 0%Z) offer_ids'),
       offer_ids')
  | (Raise e, offer_ids') => (Raise e, offer_ids')
  end.

(** The dict appended for a matching row; building it can raise. *)
Variable price_record : row -> result json.

Fixpoint prices_loop (watch_remnants : list row) (offer_ids : list string)
         (prices : list json) : result (list json) * list string :=
  match watch_remnants with
  | [] => (Ok prices, offer_ids)
  | watch :: rest =>
      if list_in (py_str (dict_get "Код" watch)) offer_ids then
        match price_record watch with
        | Raise e => (Raise e, offer_ids)
        | Ok price => prices_loop rest offer_ids (prices ++ [price])
        end
      else prices_loop rest offer_ids prices
  end.

Definition create_prices_with (watch_remnants : list row)
           (offer_ids : list string) : result (list json) * list string :=
  prices_loop watch_remnants offer_ids [].

End Transforms.

(** ** The outside world *)

(** An argument of [print]. *)
Inductive print_arg : Type :=
| PStr (s : string)
| PExn (e : exn).

(** What a run does to the outside world, in order.  The two string
    arguments of a call are the account (client or campaign id) and the
    token. *)
Inductive event : Type :=
| GetOfferIds (account token : string)
| DownloadStock
| UpdateStocks (stocks : list json) (account token : string)
| UpdatePrice (prices : list json) (account token : string)
| Print (args : list print_arg).

(** The replies of the outside world; each may depend on everything that
    happened before the call.  [get_offer_ids] (pagination over HTTP) and
    [download_stock] (HTTP, zip, spreadsheet) are taken whole. *)
Record world : Type := World {
  on_get_offer_ids : list event -> string -> string -> result (list string);
  on_download_stock : list event -> result (list row);
  on_update_stocks : list event -> list json -> string -> string -> result unit;
  on_update_price : list event -> list json -> string -> string -> result unit;
  on_utcnow : list event -> string
}.

(** A computation: from the world and the events so far to the events
    after it and its result. *)
Definition M (A : Type) : Type := world -> list event -> list event * result A.

Definition ret {A} (a : A) : M A := fun _ tr => (tr, Ok a).

Definition raise {A} (e : exn) : M A := fun _ tr => (tr, Raise e).

Definition bind {A B} (m : M A) (k : A -> M B) : M B :=
  fun w tr =>
    match m w tr with
    | (tr', Ok a) => k a w tr'
    | (tr', Raise e) => (tr', Raise e)
    end.

Definition lift {A} (r : result A) : M A := fun _ tr => (tr, r).

(** [try: body except ...: handler]; every handler of the two files
    catches, so the handler is total on exceptions. *)
Definition try_except {A} (body : M A) (handler : exn -> M A) : M A :=
  fun w tr =>
    match body w tr with
    | (tr', Ok a) => (tr', Ok a)
    | (tr', Raise e) => handler e w tr'
    end.

Declare Scope py_scope.
Delimit Scope py_scope with py.
Notation "x <- m ;; k" := (bind m (fun x => k))
  (at level 61, m at next level, right associativity) : py_scope.
Notation "m ;;; k" := (bind m (fun _ => k))
  (at level 61, right associativity) : py_scope.
Local Open Scope py_scope.

Definition get_offer_ids (account token : string) : M (list string) :=
  fun w tr => (tr ++ [GetOfferIds account token], on_get_offer_ids w tr account token).

Definition download_stock : M (list row) :=
  fun w tr => (tr ++ [DownloadStock], on_download_stock w tr).

Definition update_stocks (stocks : list json) (account token : string) : M unit :=
  fun w tr => (tr ++ [UpdateStocks stocks account token],
               on_update_stocks w tr stocks account token).

Definition update_price (prices : list json) (account token : string) : M unit :=
  fun w tr => (tr ++ [UpdatePrice prices account token],
               on_update_price w tr prices account token).

Definition utcnow : M string := fun w tr => (tr, Ok (on_utcnow w tr)).

Definition print (args : list print_arg) : M unit :=
  fun _ tr => (tr ++ [Print args], Ok tt).

(** [for x in l: body(x)]. *)
Fixpoint for_each {A} (l : list A) (body : A -> M unit) : M unit :=
  match l with
  | [] => ret tt
  | x :: l' => body x ;;; for_each l' body
  end.

(** The [except] clauses that close both [main]s, tried in order:
    [ReadTimeout], [ConnectionError] (and its subclasses), [Exception]. *)
Definition handlers (error : exn) : M unit :=
  match exn_cls error with
  | ReadTimeout => print [PStr "Превышено время ожидания..."]
  | ConnectionError | ConnectTimeout => print [PExn error; PStr "Ошибка соединения"]
  | _ => print [PExn error; PStr "ERROR_2"]
  end.

(** What calling an [async def] function gives: the suspended body. *)
Inductive coroutine (A : Type) : Type :=
| Coroutine (body : M A).
Arguments Coroutine {A} body.

(** Running a coroutine to its end, as [await] or an event loop would. *)
Definition run_coroutine {A} (c : coroutine A) : M A :=
  match c with Coroutine body => body end.

(** [x != 0] for what a payload holds under a key: anything but the
    integer 0 differs from 0. *)
Definition nonzero (v : option Z) : bool :=
  match v with
  | Some z => negb (z =? 0)%Z
  | None => true
  end.

(** ** seller.py *)

Module Seller.

Definition stock_record (offer_id : string) (stock : Z) : json :=
  JDict [("offer_id", JStr offer_id); ("stock", JInt stock)].

(** seller.py:226-270. *)
Definition create_stocks (watch_remnants : list row) (offer_ids : list string)
  : result (list json) * list string :=
  create_stocks_with stock_record watch_remnants offer_ids.

(** seller.py:303-309. *)
Definition price_record (watch : row) : result json :=
  let offer_id := py_str (dict_get "Код" watch) in
  result_bind (price_conversion (dict_get "Цена" watch)) (fun price =>
  Ok (JDict [("auto_action_enabled", JStr "UNKNOWN");
             ("currency_code", JStr "RUB");
             ("offer_id", JStr offer_id);
             ("old_price", JStr "0");
             ("price", JStr price)])).

(** seller.py:273-311. *)
Definition create_prices (watch_remnants : list row) (offer_ids : list string)
  : result (list json) * list string :=
  create_prices_with price_record watch_remnants offer_ids.

(** seller.py:364-369. *)
Definition upload_prices (watch_remnants : list row)
           (client_id seller_token : string) : coroutine (list json) :=
  Coroutine (
    offer_ids <- get_offer_ids client_id seller_token ;;
    let '(r, offer_ids) := create_prices watch_remnants offer_ids in
    prices <- lift r ;;
    chunks <- lift (divide prices 1000) ;;
    for_each chunks (fun some_price =>
      update_price some_price client_id seller_token) ;;;
    ret prices).

(** seller.py:372-378. *)
Definition upload_stocks (watch_remnants : list row)
           (client_id seller_token : string)
  : coroutine (list json * list json) :=
  Coroutine (
    offer_ids <- get_offer_ids client_id seller_token ;;
    let '(r, offer_ids) := create_stocks watch_remnants offer_ids in
    stocks <- lift r ;;
    chunks <- lift (divide stocks 100) ;;
    for_each chunks (fun some_stock =>
      update_stocks some_stock client_id seller_token) ;;;
    let not_empty :=
      filter (fun stock => nonzero (int_field "stock" stock)) stocks in
    ret (not_empty, stocks)).

(** The [try] block of [main], seller.py:386-395.  The one list
    [offer_ids] goes to [create_stocks] and then, as [create_stocks]
    left it, to [create_prices]. *)
Definition main_body (client_id seller_token : string) : M unit :=
  offer_ids <- get_offer_ids client_id seller_token ;;
  watch_remnants <- download_stock ;;
  let '(r, offer_ids) := create_stocks watch_remnants offer_ids in
  stocks <- lift r ;;
  chunks <- lift (divide stocks 100) ;;
  for_each chunks (fun some_stock =>
    update_stocks some_stock client_id seller_token) ;;;
  let '(r, offer_ids) := create_prices watch_remnants offer_ids in
  prices <- lift r ;;
  chunks <- lift (divide prices 900) ;;
  for_each chunks (fun some_price =>
    update_price some_price client_id seller_token).

(** seller.py:381-401, from the [try] on; [seller_token] and [client_id]
    are the two values read from the environment before it. *)
Definition main (seller_token client_id : string) : M unit :=
  try_except (main_body client_id seller_token) handlers.

End Seller.

(** ** market.py *)

Module Market.

(** market.py:215-225 and 231-241; [date] is the clock reading of line
    204. *)
Definition stock_record (warehouse_id date : string)
           (sku : string) (stock : Z) : json :=
  JDict [("sku", JStr sku);
         ("warehouseId", JStr warehouse_id);
         ("items", JList [JDict [("count", JInt stock);
                                 ("type", JStr "FIT");
                                 ("updatedAt", JStr date)]])].

(** market.py:168-243, after the clock was read into [date]. *)
Definition create_stocks_at (date : string) (watch_remnants : list row)
           (offer_ids : list string) (warehouse_id : string)
  : result (list json) * list string :=
  create_stocks_with (stock_record warehouse_id date) watch_remnants offer_ids.

(** market.py:281-292. *)
Definition price_record (watch : row) : result json :=
  let id := py_str (dict_get "Код" watch) in
  result_bind (price_conversion (dict_get "Цена" watch)) (fun digits =>
  result_bind (int_of_str digits) (fun value =>
  Ok (JDict [("id", JStr id);
             ("price", JDict [("value", JInt value);
                              ("currencyId", JStr "RUR")])]))).

(** market.py:246-294. *)
Definition create_prices (watch_remnants : list row) (offer_ids : list string)
  : result (list json) * list string :=
  create_prices_with price_record watch_remnants offer_ids.

(** market.py:297-302. *)
Definition upload_prices (watch_remnants : list row)
           (campaign_id market_token : string) : coroutine (list json) :=
  Coroutine (
    offer_ids <- get_offer_ids campaign_id market_token ;;
    let '(r, offer_ids) := create_prices watch_remnants offer_ids in
    prices <- lift r ;;
    chunks <- lift (divide prices 500) ;;
    for_each chunks (fun some_prices =>
      update_price some_prices campaign_id market_token) ;;;
    ret prices).

(** market.py:305-313. *)
Definition upload_stocks (watch_remnants : list row)
           (campaign_id market_token warehouse_id : string)
  : coroutine (list json * list json) :=
  Coroutine (
    offer_ids <- get_offer_ids campaign_id market_token ;;
    date <- utcnow ;;
    let '(r, offer_ids) :=
      create_stocks_at date watch_remnants offer_ids warehouse_id in
    stocks <- lift r ;;
    chunks <- lift (divide stocks 2000) ;;
    for_each chunks (fun some_stock =>
      update_stocks some_stock campaign_id market_token) ;;;
    let not_empty :=
      filter (fun stock => nonzero (first_item_count stock)) stocks in
    ret (not_empty, stocks)).

(** One account of the [try] block: market.py:327-333 (FBS) and 336-342
    (DBS).  The call of [upload_prices] builds a coroutine, which is
    dropped. *)
Definition sync_account (watch_remnants : list row)
           (campaign_id market_token warehouse_id : string) : M unit :=
  offer_ids <- get_offer_ids campaign_id market_token ;;
  date <- utcnow ;;
  let '(r, offer_ids) :=
    create_stocks_at date watch_remnants offer_ids warehouse_id in
  stocks <- lift r ;;
  chunks <- lift (divide stocks 2000) ;;
  for_each chunks (fun some_stock =>
    update_stocks some_stock campaign_id market_token) ;;;
  _ <- ret (upload_prices watch_remnants campaign_id market_token) ;;
  ret tt.

(** The [try] block, market.py:326-342. *)
Definition main_body (watch_remnants : list row)
           (market_token campaign_fbs_id campaign_dbs_id
            warehouse_fbs_id warehouse_dbs_id : string) : M unit :=
  sync_account watch_remnants campaign_fbs_id market_token warehouse_fbs_id ;;;
  sync_account watch_remnants campaign_dbs_id market_token warehouse_dbs_id.

(** market.py:316-348 after the five environment reads:
    [download_stock()] of line 324 stands before the [try]. *)
Definition main (market_token campaign_fbs_id campaign_dbs_id
                 warehouse_fbs_id warehouse_dbs_id : string) : M unit :=
  watch_remnants <- download_stock ;;
  try_except
    (main_body watch_remnants market_token campaign_fbs_id campaign_dbs_id
               warehouse_fbs_id warehouse_dbs_id)
    handlers.

End Market.

(** ** What the specification's words denote *)

(** The substring before the first ['.'] (the whole string when there is
    none). *)
Fixpoint before_first_dot (s : string) : string :=
  match s with
  | EmptyString => EmptyString
  | String c s' =>
      if Ascii.eqb c "." then EmptyString else String c (before_first_dot s')
  end.

(** The integer a string of decimal digits denotes. *)
Definition decimal_value (s : string) : Z :=
  fold_left (fun acc c => (acc * 10 + digit_value c)%Z)
            (list_ascii_of_string s) 0%Z.

Fixpoint all_digits (s : string) : bool :=
  match s with
  | EmptyString => true
  | String c s' => is_digit c && all_digits s'
  end.

(** [ceil(a / b)] for [0 < b]. *)
Definition ceil_div (a b : Z) : Z := ((a + b - 1) / b)%Z.


(** ** Reading the records back *)

(** [price.get("price").get("value")] of a market price record. *)
Definition price_value (price : json) : option json :=
  match field "price" price with
  | Some inner => field "value" inner
  | None => None
  end.

Definition price_currency (price : json) : option json :=
  match field "price" price with
  | Some inner => field "currencyId" inner
  | None => None
  end.

(** The records of [records] whose offer id is [k]. *)
Definition records_with (id_of : json -> option string) (k : string)
           (records : list json) : list json :=
  filter (fun r => match id_of r with
                   | Some k' => String.eqb k' k
                   | None => false
                   end) records.

(** The code of a row as both transforms compare it: [str(watch.get("Код"))]. *)
Definition code_of (watch : row) : string := py_str (dict_get "Код" watch).


(** C4 for one output: [prices] is selective. *)
Definition prices_selective (id_of : json -> option string)
           (watch_remnants : list row) (known : list string)
           (prices : list json) : Prop :=
  Forall (fun p =>
            exists k, id_of p = Some k /\ In k known /\
                      exists watch, In watch watch_remnants /\ code_of watch = k)
         prices /\
  (forall k, In k known ->
             (forall watch, In watch watch_remnants -> code_of watch <> k) ->
             records_with id_of k prices = []).

(** ** Reading a run back *)


Definition price_uploads (tr : list event) : list (list json) :=
  flat_map (fun ev => match ev with
                      | UpdatePrice prices _ _ => [prices]
                      | _ => []
                      end) tr.

Definition is_price_update (ev : event) : bool :=
  match ev with UpdatePrice _ _ _ => true | _ => false end.

Definition is_offer_fetch (ev : event) : bool :=
  match ev with GetOfferIds _ _ => true | _ => false end.

(** The number of calls of [get_offer_ids] in a history. *)
Definition offer_fetches (tr : list event) : nat :=
  List.length (filter is_offer_fetch tr).


(** In the world [w], [m] adds only events that satisfy [allowed]. *)
Definition emits_only (allowed : event -> bool) {A} (m : M A) (w : world) : Prop :=
  forall tr, exists evs, fst (m w tr) = tr ++ evs /\ forallb allowed evs = true.




(** A world in which every call succeeds: the catalogue holds
    [offer_ids], the spreadsheet holds [watch_remnants]. *)
Definition calm_world (offer_ids : list string) (watch_remnants : list row)
  : world :=
  World (fun _ _ _ => Ok offer_ids)
        (fun _ => Ok watch_remnants)
        (fun _ _ _ _ => Ok tt)
        (fun _ _ _ _ => Ok tt)
        (fun _ => "2023-10-01T10:00:00Z").

(** A world in which the spreadsheet cannot be downloaded. *)
Definition offline_world (offer_ids : list string) (error : exn) : world :=
  World (fun _ _ _ => Ok offer_ids)
        (fun _ => Raise error)
        (fun _ _ _ _ => Ok tt)
        (fun _ _ _ _ => Ok tt)
        (fun _ => "2023-10-01T10:00:00Z").

(** [count] rows with the codes [1 .. count] and one price. *)
Definition numbered_rows (count : nat) : list row :=
  map (fun i => [("Код", CInt (Z.of_nat i)); ("Цена", CStr "100 руб.")])
      (seq 1 count).

(** ** The shape of a price update *)

Definition is_int (v : option json) : bool :=
  match v with Some (JInt _) => true | _ => false end.

Definition is_digit_str (v : option json) : bool :=
  match v with Some (JStr s) => all_digits s | _ => false end.

(** C8 as the specification words it, for a record whose value and
    currency are read by [value_of] and [currency_of]. *)
Definition price_update_as_specified (value_of currency_of : json -> option json)
           (price : json) : Prop :=
  is_int (value_of price) = true /\
  (currency_of price = Some (JStr "RUR") \/ currency_of price = Some (JStr "RUB")).

(** ** The end-to-end scenario of the specification *)

Definition scenario_rows : list row :=
  [[("Код", CStr "A"); ("Количество", CStr ">10"); ("Цена", CStr "5'990.00 руб.")];
   [("Код", CStr "B"); ("Количество", CStr "1"); ("Цена", CStr "1'200.00 руб.")]].

Definition scenario_ids : list string := ["A"; "B"; "C"].

Definition scenario_world : world := calm_world scenario_ids scenario_rows.

(** ** Words for the further properties *)

(** The elements of [l] that are not in [seen], each where it first
    occurs. *)
Fixpoint first_occurrences (seen l : list string) : list string :=
  match l with
  | [] => []
  | x :: t =>
      if list_in x seen then first_occurrences seen t
      else x :: first_occurrences (x :: seen) t
  end.

(** The exception with which the world answers the call [ev] made after
    [history], when it answers with one. *)
Definition reply_error (w : world) (history : list event) (ev : event)
  : option exn :=
  match ev with
  | GetOfferIds account token =>
      match on_get_offer_ids w history account token with
      | Raise e => Some e
      | Ok _ => None
      end
  | DownloadStock =>
      match on_download_stock w history with
      | Raise e => Some e
      | Ok _ => None
      end
  | UpdateStocks stocks account token =>
      match on_update_stocks w history stocks account token with
      | Raise e => Some e
      | Ok _ => None
      end
  | UpdatePrice prices account token =>
      match on_update_price w history prices account token with
      | Raise e => Some e
      | Ok _ => None
      end
  | Print _ => None
  end.

(** The line the handlers print for an exception. *)
Definition report (e : exn) : list print_arg :=
  match exn_cls e with
  | ReadTimeout => [PStr "Превышено время ожидания..."]
  | ConnectionError | ConnectTimeout => [PExn e; PStr "Ошибка соединения"]
  | _ => [PExn e; PStr "ERROR_2"]
  end.

(** A computation stops at the first call the world answers with an
    exception: that call is its last event and the exception its
    result. *)
Definition stops_at_failure {A} (m : M A) (w : world) : Prop :=
  forall tr, exists evs,
    fst (m w tr) = tr ++ evs /\
    forall pre ev post e,
      evs = pre ++ ev :: post ->
      reply_error w (tr ++ pre) ev = Some e ->
      post = [] /\ snd (m w tr) = Raise e.

(** Every upload call succeeds in [w]. *)
Definition uploads_succeed (w : world) : Prop :=
  (forall tr stocks account token,
      on_update_stocks w tr stocks account token = Ok tt) /\
  (forall tr prices account token,
      on_update_price w tr prices account token = Ok tt).

(** A world in which the catalogue and the spreadsheet are served and
    every stock upload is refused with [error]. *)
Definition rejecting_world (offer_ids : list string) (watch_remnants : list row)
           (error : exn) : world :=
  World (fun _ _ _ => Ok offer_ids)
        (fun _ => Ok watch_remnants)
        (fun _ _ _ _ => Raise error)
        (fun _ _ _ _ => Ok tt)
        (fun _ => "2023-10-01T10:00:00Z").

(** ** Catalogue pagination: [get_offer_ids] of both files

    [get_product_list] is one HTTP request; here it is a function of the
    cursors sent before, the cursor, the account and the token, which
    returns [response_object.get("result")] or raises.  A [JDict] holds
    each key once, as a parsed JSON object does; a JSON [null] is the
    [None] of an absent key; JSON floats and booleans are outside the
    model.  The [while True] loops run on fuel: [None] means that the
    loop is still running when the fuel is spent. *)

Definition catalogue : Type :=
  list (option json) -> option json -> string -> string -> result (option json).

(** [o.get(key)] where [o] came from a [dict.get]: only a dict has
    [get]. *)
Definition py_get (key : string) (o : option json) : result (option json) :=
  match o with
  | Some (JDict d) => Ok (json_get key d)
  | _ => Raise (Exn AttributeError "get")
  end.

(** The characters of a [str]: its bytes, each continuation byte of
    UTF-8 (128 to 191) kept with the byte it continues. *)
Fixpoint py_chars_from (s : string) : string * list string :=
  match s with
  | EmptyString => (EmptyString, [])
  | String c s' =>
      let (pending, chars) := py_chars_from s' in
      if (128 <=? nat_of_ascii c) && (nat_of_ascii c <? 192)
      then (String c pending, chars)
      else (EmptyString, String c pending :: chars)
  end.

Definition py_chars (s : string) : list string := snd (py_chars_from s).

(** The elements [l.extend(v)] appends: those of a list, the characters
    of a [str], the keys of a dict; [TypeError] for what is not
    iterable. *)
Definition py_iter (v : option json) : result (list json) :=
  match v with
  | Some (JList l) => Ok l
  | Some (JStr s) => Ok (map JStr (py_chars s))
  | Some (JDict d) => Ok (map (fun kv => JStr (fst kv)) d)
  | Some (JInt _) => Raise (Exn TypeError "'int' object is not iterable")
  | None => Raise (Exn TypeError "'NoneType' object is not iterable")
  end.

(** [v == n] for [n] a length. *)
Definition py_eq_len (v : option json) (n : nat) : bool :=
  match v with
  | Some (JInt z) => (z =? Z.of_nat n)%Z
  | _ => false
  end.

(** The truth value of what a [dict.get] returned. *)
Definition truthy (v : option json) : bool :=
  match v with
  | None => false
  | Some (JStr s) => negb (String.eqb s "")
  | Some (JInt z) => negb (z =? 0)%Z
  | Some (JList l) => negb (Nat.eqb (List.length l) 0)
  | Some (JDict d) => negb (Nat.eqb (List.length d) 0)
  end.

(** [out = []; for x in l: out.append(f(x))]. *)
Fixpoint map_result {A B} (f : A -> result B) (l : list A) : result (list B) :=
  match l with
  | [] => Ok []
  | x :: l' =>
      match f x with
      | Raise e => Raise e
      | Ok y => match map_result f l' with
                | Raise e => Raise e
                | Ok ys => Ok (y :: ys)
                end
      end
  end.

(** A catalogue that answers the [n]-th request with the [n]-th reply of
    a script, whatever the cursor, and refuses requests beyond it. *)
Definition scripted (replies : list (option json)) : catalogue :=
  fun sent _ _ _ =>
    match nth_error replies (List.length sent) with
    | Some reply => Ok reply
    | None => Raise (Exn HTTPError "429 Too Many Requests")
    end.

Module SellerCatalogue.

(** One turn of the loop of seller.py:82-88 after the reply [some_prod]:
    the list extended, and the next cursor unless the loop breaks. *)
Definition turn (some_prod : option json) (product_list : list json)
  : result (list json * option (option json)) :=
  result_bind (py_get "items" some_prod) (fun items =>
  result_bind (py_iter items) (fun items =>
  let product_list := product_list ++ items in
  result_bind (py_get "total" some_prod) (fun total =>
  result_bind (py_get "last_id" some_prod) (fun last_id =>
  if py_eq_len total (List.length product_list)
  then Ok (product_list, None)
  else Ok (product_list, Some last_id))))).

(** The loop of seller.py:82-88.  [sent] are the cursors sent so far. *)
Fixpoint product_pages (fuel : nat) (get_product_list : catalogue)
         (client_id seller_token : string)
         (sent : list (option json)) (last_id : option json)
         (product_list : list json)
  : list (option json) * option (result (list json)) :=
  match fuel with
  | 0 => (sent, None)
  | S fuel' =>
      match result_bind (get_product_list sent last_id client_id seller_token)
                        (fun some_prod => turn some_prod product_list) with
      | Raise e => (sent ++ [last_id], Some (Raise e))
      | Ok (product_list, None) => (sent ++ [last_id], Some (Ok product_list))
      | Ok (product_list, Some last_id') =>
          product_pages fuel' get_product_list client_id seller_token
                        (sent ++ [last_id]) last_id' product_list
      end
  end.

(** seller.py:56-92: the cursors sent, and the offer ids ([None] for a
    product without one). *)
Definition get_offer_ids (fuel : nat) (get_product_list : catalogue)
           (client_id seller_token : string)
  : list (option json) * option (result (list (option json))) :=
  match product_pages fuel get_product_list client_id seller_token
                      [] (Some (JStr "")) [] with
  | (sent, Some (Ok product_list)) =>
      (sent, Some (map_result (fun product => py_get "offer_id" (Some product))
                              product_list))
  | (sent, Some (Raise e)) => (sent, Some (Raise e))
  | (sent, None) => (sent, None)
  end.

(** A reply of the product list endpoint. *)
Definition reply (items : list json) (total : nat) (last_id : string)
  : option json :=
  Some (JDict [("items", JList items);
               ("total", JInt (Z.of_nat total));
               ("last_id", JStr last_id)]).

End SellerCatalogue.

Module MarketCatalogue.

(** One turn of the loop of market.py:156-161. *)
Definition turn (some_prod : option json) (product_list : list json)
  : result (list json * option (option json)) :=
  result_bind (py_get "offerMappingEntries" some_prod) (fun entries =>
  result_bind (py_iter entries) (fun entries =>
  let product_list := product_list ++ entries in
  result_bind (py_get "paging" some_prod) (fun paging =>
  result_bind (py_get "nextPageToken" paging) (fun page =>
  if negb (truthy page)
  then Ok (product_list, None)
  else Ok (product_list, Some page))))).

Fixpoint product_pages (fuel : nat) (get_product_list : catalogue)
         (campaign_id market_token : string)
         (sent : list (option json)) (page : option json)
         (product_list : list json)
  : list (option json) * option (result (list json)) :=
  match fuel with
  | 0 => (sent, None)
  | S fuel' =>
      match result_bind (get_product_list sent page campaign_id market_token)
                        (fun some_prod => turn some_prod product_list) with
      | Raise e => (sent ++ [page], Some (Raise e))
      | Ok (product_list, None) => (sent ++ [page], Some (Ok product_list))
      | Ok (product_list, Some page') =>
          product_pages fuel' get_product_list campaign_id market_token
                        (sent ++ [page]) page' product_list
      end
  end.

(** [product.get("offer").get("shopSku")], market.py:164. *)
Definition shop_sku (product : json) : result (option json) :=
  result_bind (py_get "offer" (Some product)) (py_get "shopSku").

(** market.py:131-165. *)
Definition get_offer_ids (fuel : nat) (get_product_list : catalogue)
           (campaign_id market_token : string)
  : list (option json) * option (result (list (option json))) :=
  match product_pages fuel get_product_list campaign_id market_token
                      [] (Some (JStr "")) [] with
  | (sent, Some (Ok product_list)) => (sent, Some (map_result shop_sku product_list))
  | (sent, Some (Raise e)) => (sent, Some (Raise e))
  | (sent, None) => (sent, None)
  end.

(** A reply of the offer mapping endpoint; [token] is the next page
    token, the empty string when the reply carries none. *)
Definition reply (entries : list json) (token : string) : option json :=
  Some (JDict [("offerMappingEntries", JList entries);
               ("paging", JDict (if String.eqb token "" then []
                                 else [("nextPageToken", JStr token)]))]).

(** An entry of that reply for the article [sku]. *)
Definition entry (sku : string) : json :=
  JDict [("offer", JDict [("shopSku", JStr sku)])].

End MarketCatalogue.

(** [entry.get("offer").get("shopSku")] for an entry that has an offer. *)
Definition offer_sku (entry : json) : option json :=
  match field "offer" entry with
  | Some offer => field "shopSku" offer
  | None => None
  end.

(** * Properties *)

(** ** Sanity checks of [str] and [int] *)

Example int_of_str_42 : int_of_str "42" = Ok 42%Z.
Proof. reflexivity. Qed.

Example int_of_str_spaces_sign : int_of_str " -1_000 " = Ok (-1000)%Z.
Proof. reflexivity. Qed.

Example int_of_str_double_underscore : is_ok (int_of_str "1__0") = false.
Proof. reflexivity. Qed.

Example int_of_str_empty : int_of_str "" = Raise (Exn ValueError "").
Proof. reflexivity. Qed.

Example py_str_negative : py_str (Some (CInt (-12345)%Z)) = "-12345".
Proof. reflexivity. Qed.

Example py_str_zero : py_str (Some (CInt 0%Z)) = "0".
Proof. reflexivity. Qed.

Example py_split_example : py_split "." "5'990.00 руб." = ["5'990"; "00 руб"; ""].
Proof. reflexivity. Qed.

(** ** Quantity normalisation *)



(** ** Price normalisation *)

Lemma py_split_head (s : string) :
  exists t, py_split "." s = before_first_dot s :: t.
Proof.
  induction s as [| c s [t IH]]; cbn.
  - now exists [].
  - destruct (Ascii.eqb c "."); [now eexists |].
    rewrite IH. now exists t.
Qed.

Lemma price_conversion_str (s : string) :
  price_conversion (Some (CStr s)) = Ok (re_sub_non_digits (before_first_dot s)).
Proof.
  unfold price_conversion, py_index.
  destruct (py_split_head s) as [t ->]. reflexivity.
Qed.

Lemma all_digits_re_sub (s : string) : all_digits (re_sub_non_digits s) = true.
Proof.
  induction s as [| c s IH]; cbn; [reflexivity |].
  destruct (is_digit c) eqn:E; cbn; [rewrite E |]; exact IH.
Qed.

Lemma all_digits_Forall (s : string) :
  all_digits s = true ->
  Forall (fun c => is_digit c = true) (list_ascii_of_string s).
Proof.
  induction s as [| c s IH]; cbn; [constructor |].
  intros H. apply andb_prop in H as [Hc Hs]. constructor; auto.
Qed.

Lemma digit_not_space (c : ascii) : is_digit c = true -> is_space c = false.
Proof.
  unfold is_digit, is_space. cbv zeta. intros H.
  apply andb_prop in H as [H1 H2].
  apply Nat.leb_le in H1. apply Nat.leb_le in H2.
  apply orb_false_iff. split; apply andb_false_iff.
  - right. apply Nat.leb_gt. lia.
  - right. apply Nat.leb_gt. lia.
Qed.

Lemma lstrip_digit_head (c : ascii) (t : list ascii) :
  is_digit c = true -> lstrip (c :: t) = c :: t.
Proof. intros H. cbn. now rewrite (digit_not_space c H). Qed.

Lemma lstrip_digits (l : list ascii) :
  Forall (fun c => is_digit c = true) l -> lstrip l = l.
Proof.
  intros [| c t Hc _]; [reflexivity | now apply lstrip_digit_head].
Qed.

Lemma strip_digits (l : list ascii) :
  Forall (fun c => is_digit c = true) l -> strip l = l.
Proof.
  intros H. unfold strip.
  rewrite (lstrip_digits l H).
  rewrite (lstrip_digits (rev l)) by (apply Forall_rev, H).
  apply rev_involutive.
Qed.

Lemma parse_digits_all (l : list ascii) :
  Forall (fun c => is_digit c = true) l ->
  forall (acc : Z) (prev : bool),
    l <> [] \/ prev = true ->
    parse_digits l acc prev =
    Some (fold_left (fun a c => (a * 10 + digit_value c)%Z) l acc).
Proof.
  induction 1 as [| c t Hc Ht IH]; intros acc prev Hne; cbn.
  - destruct Hne as [Hne | ->]; [contradiction | reflexivity].
  - rewrite Hc. apply IH. now right.
Qed.

Lemma int_of_str_digits (d : string) :
  all_digits d = true -> d <> "" -> int_of_str d = Ok (decimal_value d).
Proof.
  intros Hd Hne. unfold int_of_str, parse_int, decimal_value.
  pose proof (all_digits_Forall d Hd) as HF.
  rewrite (strip_digits _ HF).
  destruct d as [| c d]; [contradiction |]. cbn [list_ascii_of_string] in *.
  assert (Hc : is_digit c = true) by now inversion HF.
  destruct (Ascii.eqb_spec c "+") as [-> | _]; [discriminate |].
  destruct (Ascii.eqb_spec c "-") as [-> | _]; [discriminate |].
  rewrite (parse_digits_all _ HF); [reflexivity | left; discriminate].
Qed.




(** ** Batch splitting *)

Lemma ceil_div_least (a b : Z) :
  (0 < b)%Z ->
  (a <= ceil_div a b * b)%Z /\ ((ceil_div a b - 1) * b < a)%Z.
Proof.
  intros Hb. unfold ceil_div.
  pose proof (Z.div_mod (a + b - 1) b ltac:(lia)) as Hdm.
  pose proof (Z.mod_pos_bound (a + b - 1) b Hb) as Hm.
  nia.
Qed.

Section Divide.

Context {A : Type}.
Variable lst : list A.
Variable n : nat.
Hypothesis n_pos : 0 < n.

Lemma range_up_past (fuel i : nat) :
  List.length lst <= i -> range_up fuel i (List.length lst) n = [].
Proof.
  intros H. destruct fuel; cbn [range_up]; [reflexivity |].
  destruct (Nat.ltb_spec i (List.length lst)); [lia | reflexivity].
Qed.

(** Any fuel of at least [stop - i] gives the same, complete range. *)
Lemma range_up_fuel (fuel fuel' i : nat) :
  List.length lst - i <= fuel -> List.length lst - i <= fuel' ->
  range_up fuel i (List.length lst) n = range_up fuel' i (List.length lst) n.
Proof.
  revert fuel' i. induction fuel as [| fuel IH]; intros fuel' i H H'.
  - rewrite (range_up_past fuel') by lia. reflexivity.
  - destruct fuel' as [| fuel'].
    + rewrite (range_up_past (S fuel)) by lia. reflexivity.
    + cbn [range_up]. destruct (Nat.ltb_spec i (List.length lst)); [| reflexivity].
      f_equal. apply IH; lia.
Qed.

Lemma chunk_length (i : nat) :
  List.length (slice lst i (i + n)) = Nat.min n (List.length lst - i).
Proof.
  unfold slice. rewrite length_firstn, length_skipn.
  replace (i + n - i) with n by lia. reflexivity.
Qed.

Lemma chunks_concat (fuel i : nat) :
  List.length lst - i <= fuel ->
  List.concat (map (fun j => slice lst j (j + n)) (range_up fuel i (List.length lst) n)) = skipn i lst.
Proof.
  revert i. induction fuel as [| fuel IH]; intros i H.
  - cbn. symmetry. apply skipn_all2. lia.
  - cbn [range_up]. destruct (Nat.ltb_spec i (List.length lst)) as [Hi | Hi].
    + cbn. rewrite IH by lia. unfold slice.
      replace (i + n - i) with n by lia.
      replace (i + n) with (n + i) by lia.
      rewrite <- skipn_skipn. apply firstn_skipn.
    + cbn. symmetry. apply skipn_all2. lia.
Qed.

Lemma chunks_count (fuel i : nat) :
  List.length lst - i <= fuel ->
  List.length (range_up fuel i (List.length lst) n) = (List.length lst - i + n - 1) / n.
Proof.
  revert i. induction fuel as [| fuel IH]; intros i H.
  - cbn. symmetry. apply Nat.div_small. lia.
  - cbn [range_up]. destruct (Nat.ltb_spec i (List.length lst)) as [Hi | Hi].
    + cbn. rewrite IH by lia.
      replace (List.length lst - i + n - 1) with ((List.length lst - i - 1) + 1 * n) by lia.
      rewrite Nat.div_add by lia.
      destruct (Nat.le_gt_cases (List.length lst - i) n) as [Hle | Hgt].
      * rewrite (Nat.div_small (List.length lst - (i + n) + n - 1)) by lia.
        rewrite (Nat.div_small (List.length lst - i - 1)) by lia. reflexivity.
      * replace (List.length lst - (i + n) + n - 1) with (List.length lst - i - 1) by lia. lia.
    + cbn. symmetry. apply Nat.div_small. lia.
Qed.

Lemma chunks_sizes (fuel i : nat) (front : list (list A)) (last : list A) :
  map (fun j => slice lst j (j + n)) (range_up fuel i (List.length lst) n) = front ++ [last] ->
  Forall (fun c => List.length c = n) front /\
  0 < List.length last <= n.
Proof.
  revert i front. induction fuel as [| fuel IH]; intros i front H.
  - cbn in H. now destruct front.
  - cbn [range_up] in H. destruct (Nat.ltb_spec i (List.length lst)) as [Hi | Hi].
    2: { cbn in H. now destruct front. }
    cbn [map] in H.
    destruct front as [| c front]; cbn in H.
    + injection H as Hc Hrest. subst last.
      split; [constructor |]. rewrite chunk_length. lia.
    + injection H as Hc Hrest.
      destruct (Nat.ltb_spec (i + n) (List.length lst)) as [Hin | Hin].
      * destruct (IH _ _ Hrest) as [Hf Hl].
        split; [| exact Hl]. constructor; [| exact Hf].
        subst c. rewrite chunk_length. lia.
      * rewrite (range_up_past fuel (i + n) Hin) in Hrest.
        now destruct front.
Qed.

End Divide.

(** C5.  For a chunk size [0 < n], [list(divide(lst, n))] is a list of
    [ceil(len(lst) / n)] chunks; every chunk but the last has exactly [n]
    elements, the last has between 1 and [n]; and the chunks put end to
    end are [lst]. *)
Theorem divide_batches :
  forall (A : Type) (lst : list A) (n : Z),
    (0 < n)%Z ->
    exists chunks : list (list A),
      divide lst n = Ok chunks /\
      Z.of_nat (List.length chunks) = ceil_div (Z.of_nat (List.length lst)) n /\
      (forall front last,
          chunks = front ++ [last] ->
          Forall (fun c => Z.of_nat (List.length c) = n) front /\
          (0 < Z.of_nat (List.length last) <= n)%Z) /\
      List.concat chunks = lst.
Proof.
  intros A lst n Hn. unfold divide.
  destruct (Z.eqb_spec n 0) as [E | _]; [lia |].
  destruct (Z.ltb_spec n 0) as [E | _]; [lia |].
  eexists. split; [reflexivity |].
  assert (Hpos : 0 < Z.to_nat n) by lia.
  split; [| split].
  - rewrite length_map, (chunks_count lst (Z.to_nat n) Hpos) by lia.
    unfold ceil_div. rewrite Nat2Z.inj_div.
    f_equal; lia.
  - intros front last H.
    destruct (chunks_sizes lst (Z.to_nat n) Hpos _ _ _ _ H) as [Hf Hl].
    split; [| lia].
    eapply Forall_impl; [| exact Hf]. cbn. intros c Hc. lia.
  - rewrite (chunks_concat lst (Z.to_nat n) Hpos) by lia. reflexivity.
Qed.

Lemma divide_batches_witness :
  exists chunks : list (list nat),
    divide [1; 2; 3; 4; 5] 2 = Ok chunks /\
    List.concat chunks = [1; 2; 3; 4; 5] /\
    Forall (fun c => Z.of_nat (List.length c) = 2%Z) [[1; 2]; [3; 4]] /\
    (0 < Z.of_nat (List.length [5%nat]) <= 2)%Z.
Proof.
  destruct (divide_batches nat [1; 2; 3; 4; 5] 2%Z eq_refl)
    as (chunks & H1 & _ & H3 & H4).
  exists chunks. split; [exact H1 |]. split; [exact H4 |].
  apply H3. cbv in H1. injection H1 as <-. reflexivity.
Defined.

Example divide_docstring : divide [1; 2; 3; 4; 5] 2 = Ok [[1; 2]; [3; 4]; [5]].
Proof. reflexivity. Qed.

Example divide_empty : divide (@nil nat) 2 = Ok [].
Proof. reflexivity. Qed.

Example divide_zero : is_ok (divide [1; 2; 3] 0) = false.
Proof. reflexivity. Qed.

Example divide_negative : divide [1; 2; 3] (-1) = Ok [].
Proof. reflexivity. Qed.

(** ** Membership and removal on the offer-id list *)

Lemma list_in_true (x : string) (l : list string) :
  list_in x l = true <-> In x l.
Proof.
  unfold list_in. rewrite existsb_exists. split.
  - intros [y [Hy E]]. apply String.eqb_eq in E. now subst.
  - intros H. exists x. split; [exact H | apply String.eqb_refl].
Qed.

Lemma list_in_false (x : string) (l : list string) :
  list_in x l = false <-> ~ In x l.
Proof.
  rewrite <- list_in_true. destruct (list_in x l); split; congruence.
Qed.

(** Guarded by [x in l], [l.remove(x)] does not raise; what is left is
    [l] without one [x]. *)
Lemma list_remove_in (x : string) (l : list string) :
  In x l ->
  exists l', list_remove x l = Ok l' /\ Permutation l (x :: l').
Proof.
  induction l as [| y t IH]; intros H; [destruct H |].
  cbn. destruct (String.eqb_spec y x) as [-> | Hne].
  - exists t. split; reflexivity.
  - destruct H as [H | H]; [contradiction |].
    destruct (IH H) as [t' [-> HP]].
    exists (y :: t'). split; [reflexivity |].
    rewrite HP. apply perm_swap.
Qed.

Lemma perm_cons_incl (x : string) (l l' : list string) :
  Permutation l (x :: l') -> forall y, In y l' -> In y l.
Proof.
  intros HP y Hy. apply (Permutation_in _ (Permutation_sym HP)). now right.
Qed.

Lemma perm_cons_nodup (x : string) (l l' : list string) :
  Permutation l (x :: l') -> NoDup l -> NoDup l' /\ ~ In x l'.
Proof.
  intros HP Hnd. apply (Permutation_NoDup HP) in Hnd.
  inversion Hnd; subst. split; assumption.
Qed.

(** ** The stock loop *)

Section StockLoop.

Variable stock_record : string -> Z -> json.

(** What the first loop returns: [stocks] grown by one record per
    matched row, in row order; the ids of these records and the ids
    left make up the ids it started from. *)
Lemma stocks_loop_ok (watch_remnants : list row) :
  forall (offer_ids : list string) (stocks out : list json)
         (left_ids : list string),
    stocks_loop stock_record watch_remnants offer_ids stocks = (Ok out, left_ids) ->
    exists matched : list (string * Z),
      out = stocks ++ map (fun p => stock_record (fst p) (snd p)) matched /\
      Permutation offer_ids (map fst matched ++ left_ids) /\
      Forall (fun p => exists watch,
                  In watch watch_remnants /\ code_of watch = fst p /\
                  stock_count watch = Ok (snd p)) matched.
Proof.
  induction watch_remnants as [| watch rest IH];
    intros offer_ids stocks out left_ids H; cbn [stocks_loop] in H.
  - injection H as <- <-. exists []. cbn. rewrite app_nil_r.
    repeat split; [reflexivity | constructor].
  - destruct (list_in (py_str (dict_get "Код" watch)) offer_ids) eqn:Hin.
    + destruct (stock_count watch) as [stock | e] eqn:Hc; [| discriminate].
      apply list_in_true in Hin.
      destruct (list_remove_in _ _ Hin) as [ids' [Hrm HP]].
      rewrite Hrm in H.
      destruct (IH _ _ _ _ H) as [matched [Hout [HP' HF]]].
      exists ((py_str (dict_get "Код" watch), stock) :: matched).
      split; [| split].
      * rewrite Hout, <- app_assoc. reflexivity.
      * cbn. rewrite HP. now apply perm_skip.
      * constructor.
        -- exists watch. cbn. repeat split; [now left | exact Hc].
        -- eapply Forall_impl; [| exact HF].
           intros p [w [Hw Hp]]. exists w. split; [now right | exact Hp].
    + destruct (IH _ _ _ _ H) as [matched [Hout [HP' HF]]].
      exists matched. repeat split; [exact Hout | exact HP' |].
      eapply Forall_impl; [| exact HF].
      intros p [w [Hw Hp]]. exists w. split; [now right | exact Hp].
Qed.


(** The ids left are among the ids given, in any case. *)
Lemma stocks_loop_left_incl (watch_remnants : list row) :
  forall (offer_ids : list string) (stocks : list json) (k : string),
    In k (snd (stocks_loop stock_record watch_remnants offer_ids stocks)) ->
    In k offer_ids.
Proof.
  induction watch_remnants as [| watch rest IH];
    intros offer_ids stocks k; cbn [stocks_loop]; [trivial |].
  destruct (list_in (py_str (dict_get "Код" watch)) offer_ids) eqn:Hin;
    [| apply IH].
  destruct (stock_count watch) as [stock | e]; [| trivial].
  apply list_in_true in Hin.
  destruct (list_remove_in _ _ Hin) as [ids' [-> HP]].
  intros Hk. apply IH in Hk. eapply perm_cons_incl; eassumption.
Qed.

(** With pairwise distinct ids, no row's code is left in the list when
    the loop returns. *)
Lemma stocks_loop_consumes (watch_remnants : list row) :
  forall (offer_ids : list string) (stocks out : list json)
         (left_ids : list string),
    NoDup offer_ids ->
    stocks_loop stock_record watch_remnants offer_ids stocks = (Ok out, left_ids) ->
    NoDup left_ids /\
    forall watch, In watch watch_remnants -> ~ In (code_of watch) left_ids.
Proof.
  induction watch_remnants as [| watch rest IH];
    intros offer_ids stocks out left_ids Hnd H.
  - cbn in H. injection H as <- <-. split; [exact Hnd | intros w []].
  - pose proof (stocks_loop_left_incl rest) as Hincl.
    cbn [stocks_loop] in H.
    destruct (list_in (py_str (dict_get "Код" watch)) offer_ids) eqn:Hin.
    + destruct (stock_count watch) as [stock | e]; [| discriminate].
      apply list_in_true in Hin.
      destruct (list_remove_in _ _ Hin) as [ids' [Hrm HP]].
      rewrite Hrm in H.
      destruct (perm_cons_nodup _ _ _ HP Hnd) as [Hnd' Hnot].
      destruct (IH _ _ _ _ Hnd' H) as [Hl Hrest].
      split; [exact Hl |].
      intros w [<- | Hw]; [| now apply Hrest].
      intros Hk. apply Hnot.
      specialize (Hincl ids' (stocks ++ [stock_record (py_str (dict_get "Код" watch)) stock])
                        (code_of watch)).
      rewrite H in Hincl. now apply Hincl.
    + destruct (IH _ _ _ _ Hnd H) as [Hl Hrest].
      split; [exact Hl |].
      intros w [<- | Hw]; [| now apply Hrest].
      intros Hk. apply list_in_false in Hin. apply Hin.
      specialize (Hincl offer_ids stocks (code_of watch)).
      rewrite H in Hincl. now apply Hincl.
Qed.

(** [create_stocks] as a whole: one record per pair of [matched], then
    one zero record per id left. *)
Lemma create_stocks_with_ok (watch_remnants : list row)
      (offer_ids : list string) (out : list json) (left_ids : list string) :
  create_stocks_with stock_record watch_remnants offer_ids = (Ok out, left_ids) ->
  exists matched : list (string * Z),
    out = map (fun p => stock_record (fst p) (snd p))
              (matched ++ map (fun k => (k, 0%Z)) left_ids) /\
    Permutation offer_ids (map fst matched ++ left_ids) /\
    Forall (fun p => exists watch,
                In watch watch_remnants /\ code_of watch = fst p /\
                stock_count watch = Ok (snd p)) matched.
Proof.
  unfold create_stocks_with.
  destruct (stocks_loop stock_record watch_remnants offer_ids [])
    as [[stocks | e] ids'] eqn:Hloop; [| discriminate].
  intros H. injection H as <- <-.
  destruct (stocks_loop_ok _ _ _ _ _ Hloop) as [matched [Hout [HP HF]]].
  exists matched. split; [| split; assumption].
  rewrite Hout. cbn. rewrite map_app, map_map. reflexivity.
Qed.

End StockLoop.

(** ** Stock transform completeness *)



Section ReadBack.

Variable stock_record : string -> Z -> json.
Variable id_of : json -> option string.
Variable qty_of : json -> option Z.
Hypothesis id_of_record : forall k q, id_of (stock_record k q) = Some k.
Hypothesis qty_of_record : forall k q, qty_of (stock_record k q) = Some q.




End ReadBack.



(** The example of the docstring of seller.py:246-249, and the one the
    docstring calls incorrect use: the known id gets its zero record. *)
Example create_stocks_docstring :
  Seller.create_stocks
    [[("Код", CStr "12345"); ("Количество", CStr ">10")];
     [("Код", CStr "67890"); ("Количество", CStr "1")]]
    ["12345"; "67890"; "11111"]
  = (Ok [Seller.stock_record "12345" 100; Seller.stock_record "67890" 0;
         Seller.stock_record "11111" 0],
     ["11111"]).
Proof. reflexivity. Qed.

Example create_stocks_empty_inventory :
  Seller.create_stocks [] ["12345"] = (Ok [Seller.stock_record "12345" 0], ["12345"]).
Proof. reflexivity. Qed.

Example create_stocks_unreadable_quantity :
  fst (Seller.create_stocks [[("Код", CStr "A"); ("Количество", CStr "")]] ["A"])
  = Raise (Exn ValueError "").
Proof. reflexivity. Qed.

Example create_stocks_repeated_ids :
  Seller.create_stocks [[("Код", CStr "A"); ("Количество", CStr "5")]] ["A"; "A"]
  = (Ok [Seller.stock_record "A" 5; Seller.stock_record "A" 0], ["A"]).
Proof. reflexivity. Qed.

(** ** Price transform selectivity *)

Section PriceLoop.

Variable price_record : row -> result json.

(** [create_prices] never touches [offer_ids], raising or not. *)
Lemma prices_loop_offer_ids (watch_remnants : list row) :
  forall (offer_ids : list string) (prices : list json),
    snd (prices_loop price_record watch_remnants offer_ids prices) = offer_ids.
Proof.
  induction watch_remnants as [| watch rest IH]; intros offer_ids prices;
    cbn [prices_loop]; [reflexivity |].
  destruct (list_in (py_str (dict_get "Код" watch)) offer_ids); [| apply IH].
  destruct (price_record watch); [apply IH | reflexivity].
Qed.

(** One record per row whose code is a known id, in row order. *)
Lemma prices_loop_ok (watch_remnants : list row) :
  forall (offer_ids : list string) (prices out : list json)
         (left_ids : list string),
    prices_loop price_record watch_remnants offer_ids prices = (Ok out, left_ids) ->
    exists built : list json,
      out = prices ++ built /\
      Forall2 (fun watch p => price_record watch = Ok p)
              (filter (fun watch => list_in (code_of watch) offer_ids)
                      watch_remnants)
              built.
Proof.
  induction watch_remnants as [| watch rest IH];
    intros offer_ids prices out left_ids H; cbn [prices_loop] in H.
  - injection H as <- _. exists []. rewrite app_nil_r. split; constructor.
  - cbn [filter]. unfold code_of at 1.
    destruct (list_in (py_str (dict_get "Код" watch)) offer_ids) eqn:Hin.
    + destruct (price_record watch) as [p | e] eqn:Hp; [| discriminate].
      destruct (IH _ _ _ _ H) as [built [-> HF]].
      exists (p :: built). rewrite <- app_assoc. split; [reflexivity |].
      constructor; assumption.
    + apply (IH _ _ _ _ H).
Qed.

Lemma prices_loop_total (watch_remnants : list row) :
  Forall (fun watch => is_ok (price_record watch) = true) watch_remnants ->
  forall (offer_ids : list string) (prices : list json),
    is_ok (fst (prices_loop price_record watch_remnants offer_ids prices)) = true.
Proof.
  induction 1 as [| watch rest Hw Hrest IH]; intros offer_ids prices;
    cbn [prices_loop]; [reflexivity |].
  destruct (list_in (py_str (dict_get "Код" watch)) offer_ids); [| apply IH].
  destruct (price_record watch); [apply IH | discriminate].
Qed.

Variable id_of : json -> option string.
Hypothesis id_of_record :
  forall watch p, price_record watch = Ok p -> id_of p = Some (code_of watch).

Lemma create_prices_with_selective (watch_remnants : list row)
      (offer_ids : list string) (out : list json) (left_ids : list string) :
  create_prices_with price_record watch_remnants offer_ids = (Ok out, left_ids) ->
  prices_selective id_of watch_remnants offer_ids out.
Proof.
  intros H. destruct (prices_loop_ok _ _ _ _ _ H) as [built [-> HF]].
  cbn [app].
  assert (Hall : Forall (fun p => exists k, id_of p = Some k /\ In k offer_ids /\
                           exists watch, In watch watch_remnants /\ code_of watch = k)
                        built).
  { remember (filter (fun watch => list_in (code_of watch) offer_ids)
                     watch_remnants) as rows eqn:Hrows.
    assert (Hsub : forall w, In w rows ->
                             In w watch_remnants /\ In (code_of w) offer_ids).
    { intros w Hw. subst rows. apply filter_In in Hw as [Hw Hin].
      split; [exact Hw | now apply list_in_true]. }
    clear Hrows H. revert Hsub.
    induction HF as [| w p rows built Hp HF IH]; intros Hsub; constructor.
    - destruct (Hsub w (or_introl eq_refl)) as [Hw Hin].
      exists (code_of w). split; [now apply id_of_record |].
      split; [exact Hin |]. now exists w.
    - apply IH. intros w' Hw'. apply Hsub. now right. }
  split; [exact Hall |].
  intros k Hk Hno. unfold records_with.
  destruct (filter _ built) as [| r rs] eqn:Hf; [reflexivity | exfalso].
  assert (Hr : In r (r :: rs)) by now left.
  rewrite <- Hf in Hr. apply filter_In in Hr as [Hr Ht].
  rewrite Forall_forall in Hall.
  destruct (Hall r Hr) as [k' [Hid [_ [w [Hw Hc]]]]].
  rewrite Hid in Ht. apply String.eqb_eq in Ht. subst k'.
  exact (Hno w Hw Hc).
Qed.

End PriceLoop.

Lemma seller_price_record_id (watch : row) (p : json) :
  Seller.price_record watch = Ok p -> str_field "offer_id" p = Some (code_of watch).
Proof.
  unfold Seller.price_record.
  destruct (price_conversion (dict_get "Цена" watch)) as [digits | e];
    [| discriminate].
  cbn. intros H. injection H as <-. reflexivity.
Qed.

Lemma market_price_record_id (watch : row) (p : json) :
  Market.price_record watch = Ok p -> str_field "id" p = Some (code_of watch).
Proof.
  unfold Market.price_record.
  destruct (price_conversion (dict_get "Цена" watch)) as [digits | e];
    [| discriminate].
  cbn. destruct (int_of_str digits) as [value | e]; [| discriminate].
  cbn. intros H. injection H as <-. reflexivity.
Qed.

(** C4.  [create_prices] (seller.py and market.py) leaves the list of
    known offer ids as it was; whenever it returns, every record has an
    offer id that is a known id and the code of a row, and a known id that
    is the code of no row has no record.  It returns whenever the record
    of every row can be built. *)
Theorem create_prices_selective :
  (forall watch_remnants offer_ids,
      snd (Seller.create_prices watch_remnants offer_ids) = offer_ids /\
      snd (Market.create_prices watch_remnants offer_ids) = offer_ids) /\
  (forall watch_remnants offer_ids prices left_ids,
      Seller.create_prices watch_remnants offer_ids = (Ok prices, left_ids) ->
      prices_selective (str_field "offer_id") watch_remnants offer_ids prices) /\
  (forall watch_remnants offer_ids prices left_ids,
      Market.create_prices watch_remnants offer_ids = (Ok prices, left_ids) ->
      prices_selective (str_field "id") watch_remnants offer_ids prices) /\
  (forall watch_remnants offer_ids,
      (Forall (fun watch => is_ok (Seller.price_record watch) = true) watch_remnants ->
       is_ok (fst (Seller.create_prices watch_remnants offer_ids)) = true) /\
      (Forall (fun watch => is_ok (Market.price_record watch) = true) watch_remnants ->
       is_ok (fst (Market.create_prices watch_remnants offer_ids)) = true)).
Proof.
  split; [| split; [| split]].
  - intros. split; apply prices_loop_offer_ids.
  - intros watch_remnants offer_ids prices left_ids H.
    eapply create_prices_with_selective;
      [exact seller_price_record_id | exact H].
  - intros watch_remnants offer_ids prices left_ids H.
    eapply create_prices_with_selective;
      [exact market_price_record_id | exact H].
  - intros. split; intros HF; apply prices_loop_total; exact HF.
Qed.

Lemma create_prices_selective_witness :
  prices_selective (str_field "offer_id") scenario_rows scenario_ids
    [JDict [("auto_action_enabled", JStr "UNKNOWN"); ("currency_code", JStr "RUB");
            ("offer_id", JStr "A"); ("old_price", JStr "0"); ("price", JStr "5990")];
     JDict [("auto_action_enabled", JStr "UNKNOWN"); ("currency_code", JStr "RUB");
            ("offer_id", JStr "B"); ("old_price", JStr "0"); ("price", JStr "1200")]] /\
  prices_selective (str_field "id") scenario_rows scenario_ids
    [JDict [("id", JStr "A");
            ("price", JDict [("value", JInt 5990); ("currencyId", JStr "RUR")])];
     JDict [("id", JStr "B");
            ("price", JDict [("value", JInt 1200); ("currencyId", JStr "RUR")])]] /\
  is_ok (fst (Seller.create_prices scenario_rows scenario_ids)) = true /\
  is_ok (fst (Market.create_prices scenario_rows scenario_ids)) = true.
Proof.
  split; [| split; [| split]].
  - apply (proj1 (proj2 create_prices_selective)) with (left_ids := scenario_ids).
    reflexivity.
  - apply (proj1 (proj2 (proj2 create_prices_selective)))
      with (left_ids := scenario_ids).
    reflexivity.
  - apply (proj1 (proj2 (proj2 (proj2 create_prices_selective))
                        scenario_rows scenario_ids)).
    repeat constructor.
  - apply (proj2 (proj2 (proj2 (proj2 create_prices_selective))
                        scenario_rows scenario_ids)).
    repeat constructor.
Defined.

Example create_prices_market_docstring :
  Market.create_prices
    [[("Код", CStr "SKU_1"); ("Цена", CStr "5'990.00 руб.")];
     [("Код", CStr "SKU_2"); ("Цена", CStr "1'200.00 руб.")]]
    ["SKU_1"; "SKU_2"; "SKU_3"]
  = (Ok [JDict [("id", JStr "SKU_1");
                ("price", JDict [("value", JInt 5990); ("currencyId", JStr "RUR")])];
         JDict [("id", JStr "SKU_2");
                ("price", JDict [("value", JInt 1200); ("currencyId", JStr "RUR")])]],
     ["SKU_1"; "SKU_2"; "SKU_3"]).
Proof. reflexivity. Qed.

Example create_prices_empty_inventory :
  Market.create_prices [] ["SKU_1"] = (Ok [], ["SKU_1"]).
Proof. reflexivity. Qed.

(** ** The shape of a price update *)

Lemma Forall2_built (price_record : row -> result json) (P : json -> Prop)
      (rows : list row) (built : list json) :
  (forall watch p, price_record watch = Ok p -> P p) ->
  Forall2 (fun watch p => price_record watch = Ok p) rows built ->
  Forall P built.
Proof.
  intros HP. induction 1 as [| w p rows built Hp _ IH]; constructor.
  - exact (HP w p Hp).
  - exact IH.
Qed.

Lemma seller_price_record_shape (watch : row) (p : json) :
  Seller.price_record watch = Ok p ->
  is_digit_str (field "price" p) = true /\
  field "currency_code" p = Some (JStr "RUB").
Proof.
  unfold Seller.price_record.
  destruct (dict_get "Цена" watch) as [[s | z] |]; try discriminate.
  rewrite price_conversion_str. cbn. intros H. injection H as <-.
  cbn. split; [apply all_digits_re_sub | reflexivity].
Qed.

Lemma market_price_record_shape (watch : row) (p : json) :
  Market.price_record watch = Ok p ->
  is_int (price_value p) = true /\ price_currency p = Some (JStr "RUR").
Proof.
  unfold Market.price_record.
  destruct (price_conversion (dict_get "Цена" watch)) as [digits | e];
    [| discriminate].
  cbn. destruct (int_of_str digits) as [value | e]; [| discriminate].
  cbn. intros H. injection H as <-. split; reflexivity.
Qed.

(** C8, amended.  Every record [create_prices] of market.py returns
    carries an [int] under price/value and ["RUR"] under
    price/currencyId; every record [create_prices] of seller.py returns
    carries under ["price"] a [str] of decimal digits and under
    ["currency_code"] the string ["RUB"]. *)
Theorem price_update_shape :
  (forall watch_remnants offer_ids prices left_ids,
      Market.create_prices watch_remnants offer_ids = (Ok prices, left_ids) ->
      Forall (fun p => is_int (price_value p) = true /\
                       price_currency p = Some (JStr "RUR")) prices) /\
  (forall watch_remnants offer_ids prices left_ids,
      Seller.create_prices watch_remnants offer_ids = (Ok prices, left_ids) ->
      Forall (fun p => is_digit_str (field "price" p) = true /\
                       field "currency_code" p = Some (JStr "RUB")) prices).
Proof.
  split; intros watch_remnants offer_ids prices left_ids H;
    destruct (prices_loop_ok _ _ _ _ _ _ H) as [built [-> HF]]; cbn [app].
  - exact (Forall2_built _ _ _ _ market_price_record_shape HF).
  - exact (Forall2_built _ _ _ _ seller_price_record_shape HF).
Qed.

Lemma price_update_shape_witness :
  Forall (fun p => is_int (price_value p) = true /\
                   price_currency p = Some (JStr "RUR"))
         [JDict [("id", JStr "A");
                 ("price", JDict [("value", JInt 5990); ("currencyId", JStr "RUR")])];
          JDict [("id", JStr "B");
                 ("price", JDict [("value", JInt 1200); ("currencyId", JStr "RUR")])]] /\
  Forall (fun p => is_digit_str (field "price" p) = true /\
                   field "currency_code" p = Some (JStr "RUB"))
         [JDict [("auto_action_enabled", JStr "UNKNOWN");
                 ("currency_code", JStr "RUB");
                 ("offer_id", JStr "12345");
                 ("old_price", JStr "0");
                 ("price", JStr "5990")]].
Proof.
  split.
  - apply (proj1 price_update_shape scenario_rows scenario_ids _ scenario_ids).
    reflexivity.
  - apply (proj2 price_update_shape
                 [[("Код", CStr "12345"); ("Цена", CStr "5'990.00 руб.")]]
                 ["12345"] _ ["12345"]).
    reflexivity.
Defined.

(** C8 as worded fails on seller.py: the price of its record is the
    [str] that [price_conversion] returned, not an [int]. *)
Lemma seller_price_is_a_str :
  ~ (forall watch_remnants offer_ids prices left_ids,
        Seller.create_prices watch_remnants offer_ids = (Ok prices, left_ids) ->
        Forall (price_update_as_specified (field "price") (field "currency_code"))
               prices).
Proof.
  intros H.
  specialize (H [[("Код", CStr "12345"); ("Цена", CStr "5'990.00 руб.")]]
                ["12345"] _ _ eq_refl).
  inversion H as [| p ps [Hint _] _]. cbn in Hint. discriminate Hint.
Qed.

(** ** Runs: which events a computation adds *)

Section EmitsOnly.

Variable allowed : event -> bool.
Variable w : world.

Lemma emits_only_ret {A} (a : A) : emits_only allowed (ret a) w.
Proof. intros tr. exists []. now rewrite app_nil_r. Qed.

Lemma emits_only_lift {A} (r : result A) : emits_only allowed (lift r) w.
Proof. intros tr. exists []. now rewrite app_nil_r. Qed.

Lemma emits_only_utcnow : emits_only allowed utcnow w.
Proof. intros tr. exists []. now rewrite app_nil_r. Qed.

(** The continuation only has to behave on the values the first part
    can return. *)
Lemma emits_only_bind {A B} (m : M A) (k : A -> M B) :
  emits_only allowed m w ->
  (forall a tr, snd (m w tr) = Ok a -> emits_only allowed (k a) w) ->
  emits_only allowed (bind m k) w.
Proof.
  intros Hm Hk tr. destruct (Hm tr) as [evs [E F]]. unfold bind.
  specialize (Hk) with (tr := tr).
  destruct (m w tr) as [tr' [a | e]]; cbn in E; subst tr'.
  - destruct (Hk a eq_refl (tr ++ evs)) as [evs' [E' F']].
    exists (evs ++ evs'). rewrite E', app_assoc, forallb_app, F, F'.
    now split.
  - exists evs. now split.
Qed.

Lemma emits_only_try_except {A} (body : M A) (handler : exn -> M A) :
  emits_only allowed body w ->
  (forall e, emits_only allowed (handler e) w) ->
  emits_only allowed (try_except body handler) w.
Proof.
  intros Hb Hh tr. destruct (Hb tr) as [evs [E F]]. unfold try_except.
  destruct (body w tr) as [tr' [a | e]]; cbn in E; subst tr'.
  - exists evs. now split.
  - destruct (Hh e (tr ++ evs)) as [evs' [E' F']].
    exists (evs ++ evs'). rewrite E', app_assoc, forallb_app, F, F'.
    now split.
Qed.

Lemma emits_only_for_each {A} (l : list A) (body : A -> M unit) :
  (forall a, emits_only allowed (body a) w) ->
  emits_only allowed (for_each l body) w.
Proof.
  intros Hb. induction l as [| x l IH]; cbn [for_each].
  - apply emits_only_ret.
  - apply emits_only_bind; [apply Hb | intros; apply IH].
Qed.

Lemma emits_only_event {A} (m : M A) (ev : event) :
  (forall tr, fst (m w tr) = tr ++ [ev]) ->
  allowed ev = true -> emits_only allowed m w.
Proof.
  intros Hm Hev tr. exists [ev]. split; [apply Hm | cbn; now rewrite Hev].
Qed.

Lemma emits_only_handlers (e : exn) :
  (forall args, allowed (Print args) = true) ->
  emits_only allowed (handlers e) w.
Proof.
  intros Hp. unfold handlers.
  destruct (exn_cls e);
    (eapply emits_only_event; [intros tr; reflexivity | apply Hp]).
Qed.

End EmitsOnly.

Lemma lift_value {A} (r : result A) (a : A) (w : world) (tr : list event) :
  snd (lift r w tr) = Ok a -> r = Ok a.
Proof. trivial. Qed.

(** ** The shared offer-id list of seller.py *)

Lemma prices_loop_no_match (price_record : row -> result json)
      (watch_remnants : list row) (offer_ids : list string) :
  (forall watch, In watch watch_remnants -> ~ In (code_of watch) offer_ids) ->
  forall prices,
    prices_loop price_record watch_remnants offer_ids prices = (Ok prices, offer_ids).
Proof.
  induction watch_remnants as [| watch rest IH]; intros Hno prices;
    cbn [prices_loop]; [reflexivity |].
  assert (Hin : list_in (py_str (dict_get "Код" watch)) offer_ids = false).
  { apply list_in_false. apply (Hno watch). now left. }
  rewrite Hin. apply IH. intros w Hw. apply Hno. now right.
Qed.

Lemma create_stocks_then_prices (watch_remnants : list row)
      (offer_ids : list string) (stocks : list json) (left_ids : list string) :
  NoDup offer_ids ->
  Seller.create_stocks watch_remnants offer_ids = (Ok stocks, left_ids) ->
  Seller.create_prices watch_remnants left_ids = (Ok [], left_ids).
Proof.
  intros Hnd H. unfold Seller.create_stocks, create_stocks_with in H.
  destruct (stocks_loop Seller.stock_record watch_remnants offer_ids [])
    as [[s | e] ids] eqn:Hloop; [| discriminate].
  injection H as _ <-.
  destruct (stocks_loop_consumes _ _ _ _ _ _ Hnd Hloop) as [_ Hno].
  apply prices_loop_no_match. exact Hno.
Qed.

(** C9.  In [main] of seller.py the list [create_stocks] has emptied of
    every matched code is the list [create_prices] receives.  With
    pairwise distinct offer ids, [create_prices] then returns the empty
    list whenever [create_stocks] returned, and a run of [main] in a
    world whose catalogue answers hold no repeated id adds no
    [update_price] call to the history. *)
Theorem seller_main_builds_no_price :
  (forall watch_remnants offer_ids stocks left_ids,
      NoDup offer_ids ->
      Seller.create_stocks watch_remnants offer_ids = (Ok stocks, left_ids) ->
      Seller.create_prices watch_remnants left_ids = (Ok [], left_ids)) /\
  (forall (seller_token client_id : string) (w : world),
      (forall tr offer_ids,
          on_get_offer_ids w tr client_id seller_token = Ok offer_ids ->
          NoDup offer_ids) ->
      emits_only (fun ev => negb (is_price_update ev))
                 (Seller.main seller_token client_id) w).
Proof.
  split; [exact create_stocks_then_prices |].
  intros seller_token client_id w Hw. unfold Seller.main.
  apply emits_only_try_except; [| intros e; now apply emits_only_handlers].
  unfold Seller.main_body.
  apply emits_only_bind;
    [eapply emits_only_event; [intros tr; reflexivity | reflexivity] |].
  intros offer_ids tr0 Hids. apply Hw in Hids.
  apply emits_only_bind;
    [eapply emits_only_event; [intros tr; reflexivity | reflexivity] |].
  intros watch_remnants _ _.
  destruct (Seller.create_stocks watch_remnants offer_ids)
    as [r left_ids] eqn:Hstocks.
  apply emits_only_bind; [apply emits_only_lift |].
  intros stocks tr1 Hr. apply lift_value in Hr. subst r.
  rewrite (create_stocks_then_prices _ _ _ _ Hids Hstocks).
  apply emits_only_bind; [apply emits_only_lift |]. intros chunks _ _.
  apply emits_only_bind.
  - apply emits_only_for_each. intros some_stock.
    eapply emits_only_event; [intros tr; reflexivity | reflexivity].
  - intros _ _ _.
    apply emits_only_bind; [apply emits_only_lift |].
    intros prices tr2 Hp. apply lift_value in Hp. injection Hp as <-.
    apply emits_only_bind; [apply emits_only_lift |].
    intros price_chunks tr3 Hc. apply lift_value in Hc. injection Hc as <-.
    apply emits_only_ret.
Qed.

Lemma seller_main_builds_no_price_witness :
  Seller.create_prices scenario_rows ["C"] = (Ok [], ["C"]) /\
  emits_only (fun ev => negb (is_price_update ev))
             (Seller.main "token" "client") scenario_world.
Proof.
  split.
  - apply (proj1 seller_main_builds_no_price) with
      (offer_ids := scenario_ids)
      (stocks := [Seller.stock_record "A" 100; Seller.stock_record "B" 0;
                  Seller.stock_record "C" 0]).
    + repeat constructor; cbn; intuition discriminate.
    + reflexivity.
  - apply (proj2 seller_main_builds_no_price).
    intros tr offer_ids H. injection H as <-.
    repeat constructor; cbn; intuition discriminate.
Defined.

(** The end-to-end scenario of the specification, run through [main] of
    seller.py: the stocks go out, no price does; on a list of its own
    [create_prices] builds the two records. *)
Example seller_main_scenario :
  fst (Seller.main "token" "client"
         scenario_world
         [])
  = [GetOfferIds "client" "token";
     DownloadStock;
     UpdateStocks [Seller.stock_record "A" 100; Seller.stock_record "B" 0;
                   Seller.stock_record "C" 0] "client" "token"].
Proof. reflexivity. Qed.

Example seller_create_prices_fresh_list :
  option_map (List.length (A:=json))
    (match fst (Seller.create_prices
                  [[("Код", CStr "A"); ("Количество", CStr ">10");
                    ("Цена", CStr "5'990.00 руб.")];
                   [("Код", CStr "B"); ("Количество", CStr "1");
                    ("Цена", CStr "1'200.00 руб.")]]
                  ["A"; "B"; "C"]) with
     | Ok prices => Some prices
     | Raise _ => None
     end)
  = Some 2.
Proof. reflexivity. Qed.

(** With a repeated offer id the second copy survives [create_stocks]
    and the price is built. *)
Example seller_main_repeated_id :
  price_uploads
    (fst (Seller.main "token" "client"
            (calm_world ["A"; "A"]
               [[("Код", CStr "A"); ("Количество", CStr "5");
                 ("Цена", CStr "100 руб.")]])
            []))
  = [[JDict [("auto_action_enabled", JStr "UNKNOWN");
             ("currency_code", JStr "RUB");
             ("offer_id", JStr "A");
             ("old_price", JStr "0");
             ("price", JStr "100")]]].
Proof. reflexivity. Qed.

(** ** The top-level handlers *)

(** What the handlers print for an exception. *)
Lemma handlers_classify (e : exn) (w : world) (tr : list event) :
  handlers e w tr =
  (tr ++ [Print match exn_cls e with
                | ReadTimeout => [PStr "Превышено время ожидания..."]
                | ConnectionError | ConnectTimeout =>
                    [PExn e; PStr "Ошибка соединения"]
                | _ => [PExn e; PStr "ERROR_2"]
                end],
   Ok tt).
Proof. unfold handlers. destruct (exn_cls e); reflexivity. Qed.

(** A [try] closed by the handlers never raises. *)
Lemma try_except_handlers_ok (body : M unit) (w : world) (tr : list event) :
  snd (try_except body handlers w tr) = Ok tt.
Proof.
  unfold try_except. destruct (body w tr) as [tr' [[] | e]]; [reflexivity |].
  now rewrite handlers_classify.
Qed.

(** seller.py: every step of [main] after the environment reads stands
    inside the [try], so nothing raised there leaves [main]. *)
Lemma seller_main_never_raises (seller_token client_id : string)
      (w : world) (tr : list event) :
  snd (Seller.main seller_token client_id w tr) = Ok tt.
Proof. apply try_except_handlers_ok. Qed.

(** market.py: [main] raises exactly when the download of line 324
    raises. *)
Lemma market_main_raises_iff_download
      (market_token campaign_fbs_id campaign_dbs_id
       warehouse_fbs_id warehouse_dbs_id : string)
      (w : world) (tr : list event) (e : exn) :
  snd (Market.main market_token campaign_fbs_id campaign_dbs_id
                   warehouse_fbs_id warehouse_dbs_id w tr) = Raise e
  <-> on_download_stock w tr = Raise e.
Proof.
  unfold Market.main, bind, download_stock.
  destruct (on_download_stock w tr) as [watch_remnants | e'].
  - rewrite try_except_handlers_ok. split; discriminate.
  - cbn. split; intros H; injection H as ->; reflexivity.
Qed.

(** C7 at the failing input.  When the spreadsheet cannot be downloaded,
    [main] of market.py ends with the exception, nothing printed: the
    download stands before its [try].  In the same world [main] of
    seller.py, whose download stands inside the [try], prints the
    connection-failure line and ends normally. *)
Theorem market_download_error_escapes :
  let error := Exn ConnectionError "timeworld.ru" in
  let w := offline_world ["A"; "B"; "C"] error in
  Market.main "token" "fbs" "dbs" "wh-fbs" "wh-dbs" w []
  = ([DownloadStock], Raise error) /\
  Seller.main "token" "client" w []
  = ([GetOfferIds "client" "token"; DownloadStock;
      Print [PExn error; PStr "Ошибка соединения"]],
     Ok tt).
Proof. split; reflexivity. Qed.

Example seller_main_read_timeout :
  Seller.main "token" "client"
              (offline_world ["A"] (Exn ReadTimeout "timeworld.ru")) []
  = ([GetOfferIds "client" "token"; DownloadStock;
      Print [PStr "Превышено время ожидания..."]],
     Ok tt).
Proof. reflexivity. Qed.

Example seller_main_data_error :
  Seller.main "token" "client"
              (calm_world ["A"] [[("Код", CStr "A"); ("Количество", CStr "")]]) []
  = ([GetOfferIds "client" "token"; DownloadStock;
      Print [PExn (Exn ValueError ""); PStr "ERROR_2"]],
     Ok tt).
Proof. reflexivity. Qed.

(** ** Uploading in chunks *)








(** A loop of calls that each add one event adds the events of a prefix
    of the list: all of it unless a call raised. *)
Lemma for_each_calls {A} (call : A -> M unit) (ev : A -> event) (w : world) :
  (forall a tr, fst (call a w tr) = tr ++ [ev a]) ->
  forall (l : list A) (tr : list event),
  exists k,
    fst (for_each l call w tr) = tr ++ map ev (firstn k l) /\
    (is_ok (snd (for_each l call w tr)) = true -> firstn k l = l).
Proof.
  intros Hcall. induction l as [| x l IH]; intros tr.
  - exists 0. cbn. rewrite app_nil_r. split; reflexivity.
  - cbn [for_each]. unfold bind. specialize (Hcall x tr).
    destruct (call x w tr) as [tr' [[] | e]]; cbn in Hcall; subst tr'.
    + destruct (IH (tr ++ [ev x])) as [k [E F]].
      exists (S k). cbn [firstn map]. rewrite E, <- app_assoc.
      split; [reflexivity |]. intros Hok. now rewrite (F Hok).
    + exists 1. cbn. split; [reflexivity | discriminate].
Qed.

Lemma divide_positive {A} (lst : list A) (n : Z) :
  (0 < n)%Z -> exists chunks, divide lst n = Ok chunks.
Proof.
  intros Hn. destruct (divide_batches A lst n Hn) as [chunks [H _]].
  now exists chunks.
Qed.

(** The outcome of a loop of calls: every call made, or the calls up to
    one that raised. *)
Lemma for_each_outcome {A} (call : A -> M unit) (ev : A -> event) (w : world) :
  (forall a tr, fst (call a w tr) = tr ++ [ev a]) ->
  forall (l : list A) (tr : list event),
    for_each l call w tr = (tr ++ map ev l, Ok tt) \/
    exists j e, for_each l call w tr = (tr ++ map ev (firstn j l), Raise e).
Proof.
  intros Hcall l tr.
  destruct (for_each_calls call ev w Hcall l tr) as [k [E F]].
  destruct (for_each l call w tr) as [tr' [[] | e]]; cbn in E, F; subst tr'.
  - left. now rewrite (F eq_refl).
  - right. now exists k, e.
Qed.











Example market_upload_prices_501 :
  map (List.length (A:=json))
      (price_uploads
         (fst (run_coroutine
                 (Market.upload_prices (numbered_rows 501) "fbs" "token")
                 (calm_world (map code_of (numbered_rows 501)) []) [])))
  = [500; 1].
Proof. vm_compute. reflexivity. Qed.


(** ** The dropped coroutine of market.py *)

Lemma market_sync_account_no_price_update
      (watch_remnants : list row) (campaign_id market_token warehouse_id : string)
      (w : world) :
  emits_only (fun ev => negb (is_price_update ev))
             (Market.sync_account watch_remnants campaign_id market_token warehouse_id)
             w.
Proof.
  unfold Market.sync_account.
  apply emits_only_bind;
    [eapply emits_only_event; [intros tr; reflexivity | reflexivity] |].
  intros offer_ids _ _.
  apply emits_only_bind; [apply emits_only_utcnow |]. intros date _ _.
  destruct (Market.create_stocks_at date watch_remnants offer_ids warehouse_id)
    as [r left_ids].
  apply emits_only_bind; [apply emits_only_lift |]. intros stocks _ _.
  apply emits_only_bind; [apply emits_only_lift |]. intros chunks _ _.
  apply emits_only_bind.
  - apply emits_only_for_each. intros some_stock.
    eapply emits_only_event; [intros tr; reflexivity | reflexivity].
  - intros _ _ _.
    apply emits_only_bind; [apply emits_only_ret |]. intros coro _ _.
    apply emits_only_ret.
Qed.

Lemma offer_fetches_app (tr tr' : list event) :
  offer_fetches (tr ++ tr') = offer_fetches tr + offer_fetches tr'.
Proof. unfold offer_fetches. now rewrite filter_app, length_app. Qed.

Lemma offer_fetches_stocks (account token : string) (l : list (list json)) :
  offer_fetches (map (fun c => UpdateStocks c account token) l) = 0.
Proof.
  unfold offer_fetches. induction l as [| c l IH]; cbn; [reflexivity | exact IH].
Qed.

(** One account: the catalogue fetch, then stock uploads, nothing else. *)
Lemma market_sync_account_events
      (watch_remnants : list row) (campaign_id market_token warehouse_id : string)
      (w : world) (tr : list event) :
  exists calls,
    fst (Market.sync_account watch_remnants campaign_id market_token warehouse_id
                             w tr)
    = tr ++ GetOfferIds campaign_id market_token
         :: map (fun c => UpdateStocks c campaign_id market_token) calls.
Proof.
  unfold Market.sync_account, bind, get_offer_ids, utcnow, lift.
  destruct (on_get_offer_ids w tr campaign_id market_token) as [offer_ids | e];
    [| now exists []].
  destruct (Market.create_stocks_at _ watch_remnants offer_ids warehouse_id)
    as [[stocks | e] left_ids]; [| now exists []].
  destruct (divide stocks 2000) as [chunks | e]; [| now exists []].
  destruct (for_each_outcome
              (fun c => update_stocks c campaign_id market_token)
              (fun c => UpdateStocks c campaign_id market_token) w
              (fun a tr' => eq_refl) chunks
              (tr ++ [GetOfferIds campaign_id market_token]))
    as [E | [j [e E]]]; rewrite E; unfold ret; cbn [fst];
    rewrite <- app_assoc; eexists; reflexivity.
Qed.

Lemma market_sync_account_fetches_once
      (watch_remnants : list row) (campaign_id market_token warehouse_id : string)
      (w : world) (tr : list event) :
  offer_fetches
    (fst (Market.sync_account watch_remnants campaign_id market_token warehouse_id
                              w tr))
  = offer_fetches tr + 1.
Proof.
  destruct (market_sync_account_events watch_remnants campaign_id market_token
                                       warehouse_id w tr) as [calls ->].
  change (GetOfferIds campaign_id market_token
            :: map (fun c => UpdateStocks c campaign_id market_token) calls)
    with ([GetOfferIds campaign_id market_token]
            ++ map (fun c => UpdateStocks c campaign_id market_token) calls).
  rewrite !offer_fetches_app, offer_fetches_stocks. reflexivity.
Qed.

(** C10.  Whatever the world answers, a run of [main] of market.py adds
    no [update_price] call to the history, and at most its own two calls
    of [get_offer_ids]: each call of [upload_prices] only builds a
    coroutine, which is dropped unrun, so neither the catalogue fetch that
    opens its body nor its [update_price] calls happen. *)
Theorem market_main_never_updates_prices :
  forall (market_token campaign_fbs_id campaign_dbs_id
          warehouse_fbs_id warehouse_dbs_id : string) (w : world),
    emits_only (fun ev => negb (is_price_update ev))
               (Market.main market_token campaign_fbs_id campaign_dbs_id
                            warehouse_fbs_id warehouse_dbs_id)
               w /\
    forall tr,
      offer_fetches
        (fst (Market.main market_token campaign_fbs_id campaign_dbs_id
                          warehouse_fbs_id warehouse_dbs_id w tr))
      <= offer_fetches tr + 2.
Proof.
  intros. split.
  - unfold Market.main.
    apply emits_only_bind;
      [eapply emits_only_event; [intros tr; reflexivity | reflexivity] |].
    intros watch_remnants _ _.
    apply emits_only_try_except.
    + unfold Market.main_body.
      apply emits_only_bind; [apply market_sync_account_no_price_update |].
      intros _ _ _. apply market_sync_account_no_price_update.
    + intros e. apply emits_only_handlers. reflexivity.
  - intros tr.
    unfold Market.main, bind, download_stock, try_except, Market.main_body, bind.
    destruct (on_download_stock w tr) as [watch_remnants | e].
    2: { cbn [fst]. rewrite offer_fetches_app. cbn. lia. }
    pose proof (market_sync_account_fetches_once
                  watch_remnants campaign_fbs_id market_token warehouse_fbs_id
                  w (tr ++ [DownloadStock])) as Hfbs.
    rewrite offer_fetches_app in Hfbs. cbn [offer_fetches filter is_offer_fetch
                                            List.length] in Hfbs.
    destruct (Market.sync_account watch_remnants campaign_fbs_id market_token
                                  warehouse_fbs_id w (tr ++ [DownloadStock]))
      as [tr1 [[] | e]]; cbn [fst] in Hfbs.
    + pose proof (market_sync_account_fetches_once
                    watch_remnants campaign_dbs_id market_token warehouse_dbs_id
                    w tr1) as Hdbs.
      destruct (Market.sync_account watch_remnants campaign_dbs_id market_token
                                    warehouse_dbs_id w tr1)
        as [tr2 [[] | e]]; cbn [fst] in Hdbs.
      * cbn [fst]. lia.
      * rewrite handlers_classify. cbn [fst].
        rewrite offer_fetches_app. cbn. lia.
    + rewrite handlers_classify. cbn [fst].
      rewrite offer_fetches_app. cbn. lia.
Qed.

(** The run the end-to-end scenario of the specification gives: two
    catalogue fetches, two stock uploads, no price upload. *)
Example market_main_scenario :
  fst (Market.main "token" "fbs" "dbs" "wh-fbs" "wh-dbs"
         scenario_world
         [])
  = [DownloadStock;
     GetOfferIds "fbs" "token";
     UpdateStocks [Market.stock_record "wh-fbs" "2023-10-01T10:00:00Z" "A" 100;
                   Market.stock_record "wh-fbs" "2023-10-01T10:00:00Z" "B" 0;
                   Market.stock_record "wh-fbs" "2023-10-01T10:00:00Z" "C" 0]
                  "fbs" "token";
     GetOfferIds "dbs" "token";
     UpdateStocks [Market.stock_record "wh-dbs" "2023-10-01T10:00:00Z" "A" 100;
                   Market.stock_record "wh-dbs" "2023-10-01T10:00:00Z" "B" 0;
                   Market.stock_record "wh-dbs" "2023-10-01T10:00:00Z" "C" 0]
                  "dbs" "token"].
Proof. reflexivity. Qed.

(** Run to its end, the same coroutine does call [update_price]. *)
Example market_upload_prices_when_run :
  fst (run_coroutine
         (Market.upload_prices
            [[("Код", CStr "A"); ("Количество", CStr ">10");
              ("Цена", CStr "5'990.00 руб.")]]
            "fbs" "token")
         (calm_world ["A"; "B"; "C"] [])
         [])
  = [GetOfferIds "fbs" "token";
     UpdatePrice
       [JDict [("id", JStr "A");
               ("price", JDict [("value", JInt 5990); ("currencyId", JStr "RUR")])]]
       "fbs" "token"].
Proof. reflexivity. Qed.

(** * Further properties of the code *)

(** ** [divide]: where an element goes, and when nothing is lost *)

Lemma range_up_nth (len n : nat) :
  0 < n ->
  forall fuel i k,
    len - i <= fuel ->
    nth_error (range_up fuel i len n) k
    = if i + k * n <? len then Some (i + k * n) else None.
Proof.
  intros Hn. induction fuel as [| fuel IH]; intros i k Hfuel.
  - cbn [range_up]. rewrite nth_error_nil.
    destruct (Nat.ltb_spec (i + k * n) len); [lia | reflexivity].
  - cbn [range_up]. destruct (Nat.ltb_spec i len) as [Hi | Hi].
    + destruct k as [| k]; cbn [nth_error].
      * rewrite Nat.mul_0_l, Nat.add_0_r.
        destruct (Nat.ltb_spec i len); [reflexivity | lia].
      * rewrite IH by lia.
        replace (i + n + k * n) with (i + S k * n) by lia. reflexivity.
    + rewrite nth_error_nil.
      destruct (Nat.ltb_spec (i + k * n) len); [lia | reflexivity].
Qed.

(** X1.  For [0 < n], the element at index [i] of [lst] is the element at
    index [i mod n] of chunk number [i / n]. *)
Theorem divide_index :
  forall (A : Type) (lst : list A) (n : Z) (i : nat),
    (0 < n)%Z ->
    i < List.length lst ->
    exists chunks c,
      divide lst n = Ok chunks /\
      nth_error chunks (i / Z.to_nat n) = Some c /\
      nth_error c (i mod Z.to_nat n) = nth_error lst i.
Proof.
  intros A lst n i Hn Hi. unfold divide.
  destruct (Z.eqb_spec n 0) as [E | _]; [lia |].
  destruct (Z.ltb_spec n 0) as [E | _]; [lia |].
  assert (Hpos : 0 < Z.to_nat n) by lia.
  set (m := Z.to_nat n) in *.
  pose proof (Nat.div_mod_eq i m) as Hdm.
  pose proof (Nat.mod_upper_bound i m ltac:(lia)) as Hr.
  eexists. exists (slice lst (i / m * m) (i / m * m + m)).
  split; [reflexivity |]. split.
  - rewrite nth_error_map, (range_up_nth _ m Hpos) by lia.
    cbn [Nat.add].
    destruct (Nat.ltb_spec (i / m * m) (List.length lst)); [reflexivity | nia].
  - unfold slice. rewrite nth_error_firstn.
    replace (i / m * m + m - i / m * m) with m by lia.
    destruct (Nat.ltb_spec (i mod m) m); [| lia].
    rewrite nth_error_skipn. f_equal. lia.
Qed.

Lemma divide_index_witness :
  exists chunks c,
    divide [10; 20; 30; 40; 50] 2 = Ok chunks /\
    nth_error chunks 2 = Some c /\
    nth_error c 0 = Some 50.
Proof.
  destruct (divide_index nat [10; 20; 30; 40; 50] 2%Z 4 eq_refl ltac:(cbn; lia))
    as (chunks & c & H1 & H2 & H3).
  exists chunks, c. repeat split; assumption.
Defined.

(** X2.  [divide] hands every record on exactly when the chunk size is
    positive or there is no record: for [n = 0] it raises, for [n < 0] it
    yields no chunk at all. *)
Theorem divide_lossless_iff :
  forall (A : Type) (lst : list A) (n : Z),
    (n = 0%Z -> is_ok (divide lst n) = false) /\
    (forall chunks,
        divide lst n = Ok chunks ->
        (List.concat chunks = lst <-> (0 < n)%Z \/ lst = [])).
Proof.
  intros A lst n. split.
  - intros ->. reflexivity.
  - intros chunks H.
    destruct (Z.lt_trichotomy n 0) as [Hneg | [-> | Hpos]].
    + unfold divide in H.
      destruct (Z.eqb_spec n 0) as [E | _]; [lia |].
      destruct (Z.ltb_spec n 0) as [_ | E]; [| lia].
      injection H as <-. cbn. split.
      * intros <-. now right.
      * intros [Hn | ->]; [lia | reflexivity].
    + discriminate H.
    + destruct (divide_batches A lst n Hpos) as (chunks' & H' & _ & _ & Hc).
      rewrite H in H'. injection H' as <-.
      split; [intros _; now left | intros _; exact Hc].
Qed.

Lemma divide_lossless_iff_witness :
  is_ok (divide [1; 2; 3] 0) = false /\
  (List.concat (A:=nat) [] = [1; 2; 3] <-> (0 < -1)%Z \/ [1; 2; 3] = []).
Proof.
  split.
  - apply (proj1 (divide_lossless_iff nat [1; 2; 3] 0%Z)). reflexivity.
  - apply (proj2 (divide_lossless_iff nat [1; 2; 3] (-1)%Z)). reflexivity.
Defined.

(** ** [create_stocks]: order, re-use and failure *)

Lemma filter_filter_and {A} (f g : A -> bool) (l : list A) :
  filter f (filter g l) = filter (fun x => g x && f x) l.
Proof.
  induction l as [| x l IH]; cbn; [reflexivity |].
  destruct (g x); cbn; [destruct (f x) |]; now rewrite IH.
Qed.

Lemma filter_all {A} (f : A -> bool) (l : list A) :
  (forall x, In x l -> f x = true) -> filter f l = l.
Proof.
  intros H. apply forallb_filter_id, forallb_forall, H.
Qed.

(** On a list without repetition, [l.remove(x)] is the filter that drops
    [x]. *)
Lemma list_remove_nodup (x : string) (l : list string) :
  NoDup l -> In x l ->
  list_remove x l = Ok (filter (fun k => negb (String.eqb k x)) l).
Proof.
  induction 1 as [| y t Hy Hnd IH]; intros Hin; [destruct Hin |].
  cbn. destruct (String.eqb_spec y x) as [-> | Hne]; cbn.
  - rewrite filter_all; [reflexivity |].
    intros k Hk. destruct (String.eqb_spec k x) as [-> | _];
      [contradiction | reflexivity].
  - destruct Hin as [Hin | Hin]; [contradiction |].
    now rewrite (IH Hin).
Qed.

Lemma list_in_cons (x y : string) (l : list string) :
  list_in x (y :: l) = String.eqb x y || list_in x l.
Proof. reflexivity. Qed.

Section StockOrder.

Variable stock_record : string -> Z -> json.

Lemma stocks_loop_order (watch_remnants : list row) :
  forall (offer_ids seen : list string) (stocks out : list json)
         (left_ids : list string) (known : string -> bool),
    NoDup offer_ids ->
    (forall x, In x seen -> ~ In x offer_ids) ->
    (forall x, known x = list_in x offer_ids || list_in x seen) ->
    stocks_loop stock_record watch_remnants offer_ids stocks = (Ok out, left_ids) ->
    exists matched : list (string * Z),
      out = stocks ++ map (fun p => stock_record (fst p) (snd p)) matched /\
      map fst matched
      = first_occurrences seen (filter known (map code_of watch_remnants)) /\
      left_ids
      = filter (fun k => negb (list_in k (map code_of watch_remnants))) offer_ids.
Proof.
  induction watch_remnants as [| watch rest IH];
    intros offer_ids seen stocks out left_ids known Hnd Hdis Hknown H;
    cbn [stocks_loop] in H.
  - injection H as <- <-. exists []. cbn. rewrite app_nil_r.
    repeat split. symmetry. now apply filter_all.
  - cbn [map filter]. fold (code_of watch) in H.
    destruct (list_in (code_of watch) offer_ids) eqn:Hin.
    + destruct (stock_count watch) as [stock | e]; [| discriminate].
      apply list_in_true in Hin.
      rewrite (list_remove_nodup _ _ Hnd Hin) in H.
      assert (Hseen : list_in (code_of watch) seen = false).
      { apply list_in_false. intros Hs. exact (Hdis _ Hs Hin). }
      assert (Hk : known (code_of watch) = true).
      { rewrite Hknown. apply orb_true_iff. left. now apply list_in_true. }
      rewrite Hk. cbn [first_occurrences]. rewrite Hseen.
      assert (Hdis' : forall x, In x (code_of watch :: seen) ->
                 ~ In x (filter (fun k => negb (String.eqb k (code_of watch)))
                                offer_ids)).
      { intros x [<- | Hx] Hf; apply filter_In in Hf as [Hf Hne].
        - now rewrite String.eqb_refl in Hne.
        - exact (Hdis _ Hx Hf). }
      assert (Hknown' : forall x,
                 known x
                 = list_in x (filter (fun k => negb (String.eqb k (code_of watch)))
                                     offer_ids)
                   || list_in x (code_of watch :: seen)).
      { intros x. rewrite Hknown, list_in_cons.
        apply eq_iff_eq_true.
        rewrite !orb_true_iff, !list_in_true, filter_In, negb_true_iff.
        destruct (String.eqb_spec x (code_of watch)) as [-> | Hne].
        - intuition.
        - intuition discriminate. }
      destruct (IH _ _ _ _ _ known (NoDup_filter _ Hnd) Hdis' Hknown' H)
        as [matched [Hout [Hm Hl]]].
      exists ((code_of watch, stock) :: matched). split; [| split].
      * rewrite Hout, <- app_assoc. reflexivity.
      * cbn. now rewrite Hm.
      * rewrite Hl, filter_filter_and. apply filter_ext. intros k.
        rewrite list_in_cons, negb_orb. reflexivity.
    + destruct (IH _ seen _ _ _ known Hnd Hdis Hknown H)
        as [matched [Hout [Hm Hl]]].
      exists matched. split; [exact Hout |]. split.
      * rewrite Hm, Hknown, Hin. cbn [orb].
        destruct (list_in (code_of watch) seen) eqn:Hs;
          [cbn [first_occurrences]; now rewrite Hs | reflexivity].
      * rewrite Hl. apply filter_ext_in. intros k Hk.
        rewrite list_in_cons.
        destruct (String.eqb_spec k (code_of watch)) as [-> | _];
          [| reflexivity].
        apply list_in_false in Hin. contradiction.
Qed.

(** Rows whose code is left in no list change nothing. *)
Lemma stocks_loop_no_match (watch_remnants : list row) (offer_ids : list string) :
  (forall watch, In watch watch_remnants -> ~ In (code_of watch) offer_ids) ->
  forall stocks,
    stocks_loop stock_record watch_remnants offer_ids stocks = (Ok stocks, offer_ids).
Proof.
  induction watch_remnants as [| watch rest IH]; intros Hno stocks;
    cbn [stocks_loop]; [reflexivity |].
  assert (Hin : list_in (py_str (dict_get "Код" watch)) offer_ids = false).
  { apply list_in_false. apply (Hno watch). now left. }
  rewrite Hin. apply IH. intros w Hw. apply Hno. now right.
Qed.

(** The loop raises only what [stock_count] raises on a row whose code
    is a known id, and returns when it raises on no such row. *)
Lemma stocks_loop_failure (watch_remnants : list row) :
  forall (offer_ids : list string) (stocks : list json) (e : exn),
    fst (stocks_loop stock_record watch_remnants offer_ids stocks) = Raise e ->
    exists watch, In watch watch_remnants /\ In (code_of watch) offer_ids /\
                  stock_count watch = Raise e.
Proof.
  induction watch_remnants as [| watch rest IH]; intros offer_ids stocks e;
    cbn [stocks_loop]; [discriminate |].
  fold (code_of watch).
  destruct (list_in (code_of watch) offer_ids) eqn:Hin.
  - apply list_in_true in Hin.
    destruct (stock_count watch) as [stock | e'] eqn:Hc.
    + destruct (list_remove_in _ _ Hin) as [ids' [-> HP]]. intros H.
      destruct (IH _ _ _ H) as [w [Hw [Hk Hr]]].
      exists w. split; [now right |]. split; [| exact Hr].
      eapply perm_cons_incl; eassumption.
    + cbn. intros H. injection H as <-. exists watch.
      split; [now left |]. split; assumption.
  - intros H. destruct (IH _ _ _ H) as [w [Hw [Hk Hr]]].
    exists w. split; [now right |]. split; assumption.
Qed.

Lemma stocks_loop_returns (watch_remnants : list row) :
  forall (offer_ids : list string) (stocks : list json),
    (forall watch, In watch watch_remnants -> In (code_of watch) offer_ids ->
                   is_ok (stock_count watch) = true) ->
    is_ok (fst (stocks_loop stock_record watch_remnants offer_ids stocks)) = true.
Proof.
  intros offer_ids stocks Hall.
  destruct (fst (stocks_loop stock_record watch_remnants offer_ids stocks))
    as [out | e] eqn:Hr; [reflexivity |].
  destruct (stocks_loop_failure _ _ _ _ Hr) as [w [Hw [Hk Hc]]].
  specialize (Hall w Hw Hk). now rewrite Hc in Hall.
Qed.

End StockOrder.

Lemma stock_count_error_class (watch : row) (e : exn) :
  stock_count watch = Raise e ->
  exn_cls e = ValueError \/ exn_cls e = TypeError.
Proof.
  unfold stock_count.
  destruct (String.eqb _ ">10"); [discriminate |].
  destruct (String.eqb _ "1"); [discriminate |].
  destruct (dict_get "Количество" watch) as [[s | z] |]; cbn.
  - unfold int_of_str. destruct (parse_int _); [discriminate |].
    intros H. injection H as <-. now left.
  - discriminate.
  - intros H. injection H as <-. now right.
Qed.

Section StockOrderRead.

Variable stock_record : string -> Z -> json.
Variable id_of : json -> option string.
Hypothesis id_of_record : forall k q, id_of (stock_record k q) = Some k.

Lemma create_stocks_with_order (watch_remnants : list row)
      (offer_ids : list string) (out : list json) (left_ids : list string) :
  NoDup offer_ids ->
  create_stocks_with stock_record watch_remnants offer_ids = (Ok out, left_ids) ->
  left_ids
  = filter (fun k => negb (list_in k (map code_of watch_remnants))) offer_ids /\
  map id_of out
  = map Some (first_occurrences []
                (filter (fun c => list_in c offer_ids)
                        (map code_of watch_remnants))
              ++ left_ids).
Proof.
  intros Hnd H. unfold create_stocks_with in H.
  destruct (stocks_loop stock_record watch_remnants offer_ids [])
    as [[stocks | e] ids] eqn:Hloop; [| discriminate].
  injection H as <- <-.
  destruct (stocks_loop_order stock_record watch_remnants offer_ids [] [] stocks ids
              (fun c => list_in c offer_ids) Hnd)
    as [matched [Hout [Hm Hl]]]; [intros x [] | | exact Hloop |].
  { intros x. cbn. now rewrite orb_false_r. }
  split; [exact Hl |].
  rewrite Hout. cbn [app].
  rewrite !map_app, <- Hm, !map_map. f_equal.
  - apply map_ext. intros p. apply id_of_record.
  - apply map_ext. intros k. apply id_of_record.
Qed.

End StockOrderRead.

(** X3.  Output order of [create_stocks].  With pairwise distinct known
    ids, the records come in this order: one for each row code that is a
    known id, where the code first occurs in the spreadsheet (a later row
    with the same code is skipped); then one for each known id that is no
    row's code, in catalogue order.  The list left in [offer_ids] is the
    known ids minus the row codes. *)
Theorem create_stocks_order :
  (forall watch_remnants offer_ids stocks left_ids,
      NoDup offer_ids ->
      Seller.create_stocks watch_remnants offer_ids = (Ok stocks, left_ids) ->
      left_ids
      = filter (fun k => negb (list_in k (map code_of watch_remnants))) offer_ids /\
      map (str_field "offer_id") stocks
      = map Some (first_occurrences []
                    (filter (fun c => list_in c offer_ids)
                            (map code_of watch_remnants))
                  ++ left_ids)) /\
  (forall date warehouse_id watch_remnants offer_ids stocks left_ids,
      NoDup offer_ids ->
      Market.create_stocks_at date watch_remnants offer_ids warehouse_id
      = (Ok stocks, left_ids) ->
      left_ids
      = filter (fun k => negb (list_in k (map code_of watch_remnants))) offer_ids /\
      map (str_field "sku") stocks
      = map Some (first_occurrences []
                    (filter (fun c => list_in c offer_ids)
                            (map code_of watch_remnants))
                  ++ left_ids)).
Proof.
  split.
  - intros watch_remnants offer_ids stocks left_ids Hnd H.
    apply (create_stocks_with_order Seller.stock_record); [reflexivity | exact Hnd | exact H].
  - intros date warehouse_id watch_remnants offer_ids stocks left_ids Hnd H.
    apply (create_stocks_with_order (Market.stock_record warehouse_id date));
      [reflexivity | exact Hnd | exact H].
Qed.

Lemma create_stocks_order_witness :
  map (str_field "offer_id")
      [Seller.stock_record "B" 7; Seller.stock_record "A" 100;
       Seller.stock_record "C" 0; Seller.stock_record "D" 0]
  = map Some (first_occurrences [] ["B"; "A"; "B"] ++ ["C"; "D"]) /\
  map (str_field "sku")
      [Market.stock_record "wh" "now" "A" 100; Market.stock_record "wh" "now" "B" 0;
       Market.stock_record "wh" "now" "C" 0]
  = map Some (first_occurrences [] ["A"; "B"] ++ ["C"]).
Proof.
  split.
  - apply (proj1 create_stocks_order
                 [[("Код", CStr "B"); ("Количество", CStr "7")];
                  [("Код", CStr "X"); ("Количество", CStr "3")];
                  [("Код", CStr "A"); ("Количество", CStr ">10")];
                  [("Код", CStr "B"); ("Количество", CStr "9")]]
                 ["C"; "A"; "D"; "B"] _ ["C"; "D"]).
    + repeat constructor; cbn; intuition discriminate.
    + reflexivity.
  - apply (proj2 create_stocks_order "now" "wh" scenario_rows scenario_ids _ ["C"]).
    + repeat constructor; cbn; intuition discriminate.
    + reflexivity.
Defined.

(** With a repeated known id the set difference is not what is left:
    one copy of the id survives the matching row. *)
Example create_stocks_repeated_id_left :
  snd (Seller.create_stocks [[("Код", CStr "A"); ("Количество", CStr "5")]] ["A"; "A"])
  = ["A"] /\
  filter (fun k => negb (list_in k ["A"])) ["A"; "A"] = [].
Proof. split; reflexivity. Qed.

(** X4.  [create_stocks] on a list it has already consumed.  With pairwise
    distinct known ids, a second call on the same inventory and the list
    the first call left returns only zero records, one per id left: the
    offers matched by the first call get no record at all. *)
Theorem create_stocks_twice :
  (forall watch_remnants offer_ids stocks left_ids,
      NoDup offer_ids ->
      Seller.create_stocks watch_remnants offer_ids = (Ok stocks, left_ids) ->
      Seller.create_stocks watch_remnants left_ids
      = (Ok (map (fun offer_id => Seller.stock_record offer_id 0) left_ids),
         left_ids)) /\
  (forall date warehouse_id watch_remnants offer_ids stocks left_ids,
      NoDup offer_ids ->
      Market.create_stocks_at date watch_remnants offer_ids warehouse_id
      = (Ok stocks, left_ids) ->
      forall date',
        Market.create_stocks_at date' watch_remnants left_ids warehouse_id
        = (Ok (map (fun sku => Market.stock_record warehouse_id date' sku 0)
                   left_ids),
           left_ids)).
Proof.
  assert (Hgen : forall rec rec' watch_remnants offer_ids stocks left_ids,
             NoDup offer_ids ->
             create_stocks_with rec watch_remnants offer_ids = (Ok stocks, left_ids) ->
             create_stocks_with rec' watch_remnants left_ids
             = (Ok (map (fun k => rec' k 0%Z) left_ids), left_ids)).
  { intros rec rec' watch_remnants offer_ids stocks left_ids Hnd H.
    unfold create_stocks_with in H.
    destruct (stocks_loop rec watch_remnants offer_ids [])
      as [[s | e] ids] eqn:Hloop; [| discriminate].
    injection H as _ <-.
    destruct (stocks_loop_consumes _ _ _ _ _ _ Hnd Hloop) as [_ Hno].
    unfold create_stocks_with.
    now rewrite (stocks_loop_no_match rec' _ _ Hno). }
  split.
  - intros watch_remnants offer_ids stocks left_ids Hnd H.
    exact (Hgen _ Seller.stock_record _ _ _ _ Hnd H).
  - intros date warehouse_id watch_remnants offer_ids stocks left_ids Hnd H date'.
    exact (Hgen _ (Market.stock_record warehouse_id date') _ _ _ _ Hnd H).
Qed.

Lemma create_stocks_twice_witness :
  Seller.create_stocks scenario_rows ["C"]
  = (Ok [Seller.stock_record "C" 0], ["C"]) /\
  Market.create_stocks_at "later" scenario_rows ["C"] "wh"
  = (Ok [Market.stock_record "wh" "later" "C" 0], ["C"]).
Proof.
  split.
  - apply (proj1 create_stocks_twice scenario_rows scenario_ids
                 [Seller.stock_record "A" 100; Seller.stock_record "B" 0;
                  Seller.stock_record "C" 0]).
    + repeat constructor; cbn; intuition discriminate.
    + reflexivity.
  - apply (proj2 create_stocks_twice "now" "wh" scenario_rows scenario_ids
                 [Market.stock_record "wh" "now" "A" 100;
                  Market.stock_record "wh" "now" "B" 0;
                  Market.stock_record "wh" "now" "C" 0]).
    + repeat constructor; cbn; intuition discriminate.
    + reflexivity.
Defined.

(** X5.  When [create_stocks] raises.  It raises only the exception of the
    quantity rule on a row whose code is a known id, a [ValueError] (the
    quantity is a [str] that [int] rejects) or a [TypeError] (the row has
    no quantity); rows whose code is no known id are never read.  It
    returns whenever the rule raises on no row whose code is a known id. *)
Theorem create_stocks_failure :
  (forall watch_remnants offer_ids,
      (forall e,
          fst (Seller.create_stocks watch_remnants offer_ids) = Raise e ->
          (exn_cls e = ValueError \/ exn_cls e = TypeError) /\
          exists watch, In watch watch_remnants /\ In (code_of watch) offer_ids /\
                        stock_count watch = Raise e) /\
      ((forall watch, In watch watch_remnants -> In (code_of watch) offer_ids ->
                      is_ok (stock_count watch) = true) ->
       is_ok (fst (Seller.create_stocks watch_remnants offer_ids)) = true)) /\
  (forall date warehouse_id watch_remnants offer_ids,
      (forall e,
          fst (Market.create_stocks_at date watch_remnants offer_ids warehouse_id)
          = Raise e ->
          (exn_cls e = ValueError \/ exn_cls e = TypeError) /\
          exists watch, In watch watch_remnants /\ In (code_of watch) offer_ids /\
                        stock_count watch = Raise e) /\
      ((forall watch, In watch watch_remnants -> In (code_of watch) offer_ids ->
                      is_ok (stock_count watch) = true) ->
       is_ok (fst (Market.create_stocks_at date watch_remnants offer_ids
                                           warehouse_id)) = true)).
Proof.
  assert (Hgen : forall rec watch_remnants offer_ids,
             (forall e,
                 fst (create_stocks_with rec watch_remnants offer_ids) = Raise e ->
                 (exn_cls e = ValueError \/ exn_cls e = TypeError) /\
                 exists watch, In watch watch_remnants /\
                               In (code_of watch) offer_ids /\
                               stock_count watch = Raise e) /\
             ((forall watch, In watch watch_remnants ->
                             In (code_of watch) offer_ids ->
                             is_ok (stock_count watch) = true) ->
              is_ok (fst (create_stocks_with rec watch_remnants offer_ids)) = true)).
  { intros rec watch_remnants offer_ids. split.
    - intros e H. unfold create_stocks_with in H.
      destruct (stocks_loop rec watch_remnants offer_ids [])
        as [[s | e'] ids] eqn:Hloop; [discriminate |].
      cbn in H. injection H as ->.
      destruct (stocks_loop_failure rec watch_remnants offer_ids [] e)
        as [w [Hw [Hk Hc]]]; [now rewrite Hloop |].
      split; [exact (stock_count_error_class _ _ Hc) |].
      exists w. repeat split; assumption.
    - intros Hall. unfold create_stocks_with.
      pose proof (stocks_loop_returns rec watch_remnants offer_ids [] Hall) as Hr.
      destruct (stocks_loop rec watch_remnants offer_ids []) as [[s | e] ids];
        [reflexivity | exact Hr]. }
  split.
  - intros. apply Hgen.
  - intros. apply Hgen.
Qed.

Lemma create_stocks_failure_witness :
  (exn_cls (Exn ValueError "нет") = ValueError \/
   exn_cls (Exn ValueError "нет") = TypeError) /\
  is_ok (fst (Seller.create_stocks
                [[("Код", CStr "A"); ("Количество", CStr "3")];
                 [("Код", CStr "Z"); ("Количество", CStr "нет")]]
                ["A"; "B"])) = true /\
  is_ok (fst (Market.create_stocks_at "now"
                [[("Код", CStr "A"); ("Количество", CStr "3")];
                 [("Код", CStr "Z")]]
                ["A"; "B"] "wh")) = true.
Proof.
  split; [| split].
  - apply (proj1 (proj1 create_stocks_failure
                        [[("Код", CStr "A"); ("Количество", CStr "нет")]] ["A"])
                 (Exn ValueError "нет")).
    reflexivity.
  - apply (proj2 (proj1 create_stocks_failure _ _)).
    intros watch [<- | [<- | []]] Hk; [reflexivity |].
    cbn in Hk. intuition discriminate.
  - apply (proj2 (proj2 create_stocks_failure "now" "wh" _ _)).
    intros watch [<- | [<- | []]] Hk; [reflexivity |].
    cbn in Hk. intuition discriminate.
Defined.

(** ** [create_prices]: order and failure *)

Section PriceOrder.

Variable price_record : row -> result json.



Variable id_of : json -> option string.
Hypothesis id_of_record :
  forall watch p, price_record watch = Ok p -> id_of p = Some (code_of watch).

Lemma create_prices_with_order (watch_remnants : list row)
      (offer_ids : list string) (out : list json) (left_ids : list string) :
  create_prices_with price_record watch_remnants offer_ids = (Ok out, left_ids) ->
  map id_of out
  = map Some (filter (fun c => list_in c offer_ids) (map code_of watch_remnants)).
Proof.
  intros H. destruct (prices_loop_ok _ _ _ _ _ _ H) as [built [-> HF]].
  cbn [app]. clear H.
  induction watch_remnants as [| watch rest IH] in built, HF |- *; cbn in HF |- *.
  - inversion HF. reflexivity.
  - destruct (list_in (code_of watch) offer_ids).
    + inversion HF as [| w p rows ps Hp HF' E1 E2]. subst.
      cbn. rewrite (id_of_record _ _ Hp). f_equal. now apply IH.
    + now apply IH.
Qed.

End PriceOrder.

(** X6.  Output order of [create_prices].  Whenever it returns, the offer
    ids of its records are the codes of the rows whose code is a known
    id, in spreadsheet order, one record per such row: a code that stands
    in two rows gets two price records. *)
Theorem create_prices_order :
  (forall watch_remnants offer_ids prices left_ids,
      Seller.create_prices watch_remnants offer_ids = (Ok prices, left_ids) ->
      map (str_field "offer_id") prices
      = map Some (filter (fun c => list_in c offer_ids)
                         (map code_of watch_remnants))) /\
  (forall watch_remnants offer_ids prices left_ids,
      Market.create_prices watch_remnants offer_ids = (Ok prices, left_ids) ->
      map (str_field "id") prices
      = map Some (filter (fun c => list_in c offer_ids)
                         (map code_of watch_remnants))).
Proof.
  split; intros watch_remnants offer_ids prices left_ids H.
  - exact (create_prices_with_order _ _ seller_price_record_id _ _ _ _ H).
  - exact (create_prices_with_order _ _ market_price_record_id _ _ _ _ H).
Qed.

Lemma create_prices_order_witness :
  map (str_field "offer_id")
      [JDict [("auto_action_enabled", JStr "UNKNOWN"); ("currency_code", JStr "RUB");
              ("offer_id", JStr "A"); ("old_price", JStr "0"); ("price", JStr "100")];
       JDict [("auto_action_enabled", JStr "UNKNOWN"); ("currency_code", JStr "RUB");
              ("offer_id", JStr "A"); ("old_price", JStr "0"); ("price", JStr "250")]]
  = [Some "A"; Some "A"] /\
  map (str_field "id")
      [JDict [("id", JStr "A");
              ("price", JDict [("value", JInt 5990); ("currencyId", JStr "RUR")])];
       JDict [("id", JStr "B");
              ("price", JDict [("value", JInt 1200); ("currencyId", JStr "RUR")])]]
  = [Some "A"; Some "B"].
Proof.
  split.
  - apply (proj1 create_prices_order
                 [[("Код", CStr "A"); ("Цена", CStr "100 руб.")];
                  [("Код", CStr "X"); ("Цена", CStr "7 руб.")];
                  [("Код", CStr "A"); ("Цена", CStr "250 руб.")]]
                 ["A"; "B"] _ ["A"; "B"]).
    reflexivity.
  - apply (proj2 create_prices_order scenario_rows scenario_ids _ scenario_ids).
    reflexivity.
Defined.





(** ** Runs stop at the first failing call *)

Lemma split_before_last {A} (pre post evs : list A) (ev x : A) :
  pre ++ ev :: post = evs ++ [x] ->
  (post = [] /\ pre = evs /\ ev = x) \/
  exists post', post = post' ++ [x] /\ evs = pre ++ ev :: post'.
Proof.
  induction post as [| p post' _] using rev_ind; intros H.
  - apply app_inj_tail in H as [-> ->]. now left.
  - right. exists post'.
    change (pre ++ ev :: post' ++ [p]) with (pre ++ (ev :: post') ++ [p]) in H.
    rewrite app_assoc in H. apply app_inj_tail in H as [<- ->]. now split.
Qed.

Lemma split_in_app {A} (pre post l1 l2 : list A) (ev : A) :
  l1 ++ l2 = pre ++ ev :: post ->
  (exists post1, l1 = pre ++ ev :: post1 /\ post = post1 ++ l2) \/
  (exists pre2, pre = l1 ++ pre2 /\ l2 = pre2 ++ ev :: post).
Proof.
  revert pre. induction l1 as [| a l1 IH]; intros pre H.
  - right. exists pre. now split.
  - destruct pre as [| b pre]; cbn in H; injection H as <- H.
    + left. exists l1. now split.
    + destruct (IH _ H) as [[post1 [-> ->]] | [pre2 [-> ->]]].
      * left. now exists post1.
      * right. now exists pre2.
Qed.

Section StopsAtFailure.

Variable w : world.

Lemma stops_silent {A} (m : M A) :
  (forall tr, fst (m w tr) = tr) -> stops_at_failure m w.
Proof.
  intros Hm tr. exists []. rewrite app_nil_r. split; [apply Hm |].
  intros pre ev post e H. now destruct pre.
Qed.

Lemma stops_call {A} (m : M A) (ev : event) :
  (forall tr, fst (m w tr) = tr ++ [ev]) ->
  (forall tr e, reply_error w tr ev = Some e -> snd (m w tr) = Raise e) ->
  stops_at_failure m w.
Proof.
  intros Hev Hr tr. exists [ev]. split; [apply Hev |].
  intros pre ev' post e H He.
  destruct pre as [| p pre]; cbn in H.
  - injection H as <- <-. rewrite app_nil_r in He. split; [reflexivity | now apply Hr].
  - injection H as _ H. now destruct pre.
Qed.

Lemma stops_get_offer_ids (account token : string) :
  stops_at_failure (get_offer_ids account token) w.
Proof.
  apply stops_call with (ev := GetOfferIds account token); [reflexivity |].
  intros tr e H. cbn in *.
  destruct (on_get_offer_ids w tr account token); [discriminate | congruence].
Qed.

Lemma stops_download_stock : stops_at_failure download_stock w.
Proof.
  apply stops_call with (ev := DownloadStock); [reflexivity |].
  intros tr e H. cbn in *.
  destruct (on_download_stock w tr); [discriminate | congruence].
Qed.

Lemma stops_update_stocks (stocks : list json) (account token : string) :
  stops_at_failure (update_stocks stocks account token) w.
Proof.
  apply stops_call with (ev := UpdateStocks stocks account token); [reflexivity |].
  intros tr e H. cbn in *.
  destruct (on_update_stocks w tr stocks account token); [discriminate | congruence].
Qed.

Lemma stops_update_price (prices : list json) (account token : string) :
  stops_at_failure (update_price prices account token) w.
Proof.
  apply stops_call with (ev := UpdatePrice prices account token); [reflexivity |].
  intros tr e H. cbn in *.
  destruct (on_update_price w tr prices account token); [discriminate | congruence].
Qed.

Lemma stops_bind {A B} (m : M A) (k : A -> M B) :
  stops_at_failure m w ->
  (forall a, stops_at_failure (k a) w) ->
  stops_at_failure (bind m k) w.
Proof.
  intros Hm Hk tr. destruct (Hm tr) as [evs1 [E1 F1]]. unfold bind.
  destruct (m w tr) as [tr1 [a | e1]] eqn:Hrun; cbn in E1; subst tr1.
  - destruct (Hk a (tr ++ evs1)) as [evs2 [E2 F2]].
    exists (evs1 ++ evs2). rewrite E2, app_assoc. split; [reflexivity |].
    intros pre ev post e H He.
    destruct (split_in_app _ _ _ _ _ H) as [[post1 [H1 _]] | [pre2 [-> H2]]].
    + destruct (F1 _ _ _ _ H1 He) as [_ Habs]. cbn in Habs. discriminate.
    + rewrite app_assoc in He. exact (F2 _ _ _ _ H2 He).
  - exists evs1. split; [reflexivity |].
    intros pre ev post e H He.
    destruct (F1 _ _ _ _ H He) as [-> Hr]. cbn in Hr. injection Hr as ->.
    now split.
Qed.

Lemma stops_for_each {A} (l : list A) (body : A -> M unit) :
  (forall a, stops_at_failure (body a) w) ->
  stops_at_failure (for_each l body) w.
Proof.
  intros Hb. induction l as [| x l IH]; cbn [for_each].
  - now apply stops_silent.
  - apply stops_bind; [apply Hb | intros _; exact IH].
Qed.

(** Closed by the handlers, a computation that stops at its first
    failing call is followed by the printed line and nothing else. *)
Lemma stops_try_except (body : M unit) :
  stops_at_failure body w ->
  forall tr, exists evs,
    fst (try_except body handlers w tr) = tr ++ evs /\
    forall pre ev post e,
      evs = pre ++ ev :: post ->
      reply_error w (tr ++ pre) ev = Some e ->
      post = [Print (report e)].
Proof.
  intros Hb tr. destruct (Hb tr) as [evs1 [E1 F1]]. unfold try_except.
  destruct (body w tr) as [tr1 [[] | e1]] eqn:Hrun; cbn in E1; subst tr1.
  - exists evs1. split; [reflexivity |].
    intros pre ev post e H He.
    destruct (F1 _ _ _ _ H He) as [_ Habs]. cbn in Habs. discriminate.
  - rewrite handlers_classify. fold (report e1).
    exists (evs1 ++ [Print (report e1)]). rewrite app_assoc.
    split; [reflexivity |].
    intros pre ev post e H He. symmetry in H.
    destruct (split_before_last _ _ _ _ _ H) as [[_ [_ ->]] | [post' [-> H1]]].
    + discriminate He.
    + destruct (F1 _ _ _ _ H1 He) as [-> Hr]. cbn in Hr.
      injection Hr as ->. reflexivity.
Qed.

End StopsAtFailure.

Lemma seller_main_body_stops (client_id seller_token : string) (w : world) :
  stops_at_failure (Seller.main_body client_id seller_token) w.
Proof.
  unfold Seller.main_body.
  apply stops_bind; [apply stops_get_offer_ids |]. intros offer_ids.
  apply stops_bind; [apply stops_download_stock |]. intros watch_remnants.
  destruct (Seller.create_stocks watch_remnants offer_ids) as [r left_ids].
  apply stops_bind; [now apply stops_silent |]. intros stocks.
  apply stops_bind; [now apply stops_silent |]. intros chunks.
  apply stops_bind.
  { apply stops_for_each. intros c. apply stops_update_stocks. }
  intros _.
  destruct (Seller.create_prices watch_remnants left_ids) as [r' left_ids'].
  apply stops_bind; [now apply stops_silent |]. intros prices.
  apply stops_bind; [now apply stops_silent |]. intros pchunks.
  apply stops_for_each. intros c. apply stops_update_price.
Qed.

Lemma market_sync_account_stops
      (watch_remnants : list row) (campaign_id market_token warehouse_id : string)
      (w : world) :
  stops_at_failure
    (Market.sync_account watch_remnants campaign_id market_token warehouse_id) w.
Proof.
  unfold Market.sync_account.
  apply stops_bind; [apply stops_get_offer_ids |]. intros offer_ids.
  apply stops_bind; [now apply stops_silent |]. intros date.
  destruct (Market.create_stocks_at date watch_remnants offer_ids warehouse_id)
    as [r left_ids].
  apply stops_bind; [now apply stops_silent |]. intros stocks.
  apply stops_bind; [now apply stops_silent |]. intros chunks.
  apply stops_bind.
  { apply stops_for_each. intros c. apply stops_update_stocks. }
  intros _.
  apply stops_bind; [now apply stops_silent |].
  intros coro. now apply stops_silent.
Qed.

(** X8.  seller.py stops at the first failing call.  In every world, when
    a call of a run of [main] ([get_offer_ids], [download_stock],
    [update_stocks], [update_price]) is answered with an exception, the
    one event that follows is the line the handlers print for that
    exception: no later chunk is uploaded and nothing is tried again. *)
Theorem seller_main_stops_at_first_failure :
  forall (seller_token client_id : string) (w : world) (tr : list event),
  exists evs,
    fst (Seller.main seller_token client_id w tr) = tr ++ evs /\
    forall pre ev post e,
      evs = pre ++ ev :: post ->
      reply_error w (tr ++ pre) ev = Some e ->
      post = [Print (report e)].
Proof.
  intros. unfold Seller.main.
  apply stops_try_except, seller_main_body_stops.
Qed.

(** X9.  market.py stops at the first failing call.  In every world, when
    the download that opens [main] is answered with an exception, it is
    the only event of the run and [main] ends with that exception; when a
    later call is, the one event that follows is the line the handlers
    print for it, so after a failure in the FBS account the DBS account
    is not touched. *)
Theorem market_main_stops_at_first_failure :
  forall (market_token campaign_fbs_id campaign_dbs_id
          warehouse_fbs_id warehouse_dbs_id : string)
         (w : world) (tr : list event),
  exists evs,
    fst (Market.main market_token campaign_fbs_id campaign_dbs_id
                     warehouse_fbs_id warehouse_dbs_id w tr) = tr ++ evs /\
    forall pre ev post e,
      evs = pre ++ ev :: post ->
      reply_error w (tr ++ pre) ev = Some e ->
      (pre = [] /\ ev = DownloadStock /\ post = [] /\
       snd (Market.main market_token campaign_fbs_id campaign_dbs_id
                        warehouse_fbs_id warehouse_dbs_id w tr) = Raise e) \/
      (pre <> [] /\ post = [Print (report e)]).
Proof.
  intros. unfold Market.main, bind, download_stock.
  destruct (on_download_stock w tr) as [watch_remnants | e0] eqn:Hd.
  - destruct (stops_try_except w
                (Market.main_body watch_remnants market_token campaign_fbs_id
                                  campaign_dbs_id warehouse_fbs_id warehouse_dbs_id))
      with (tr := tr ++ [DownloadStock]) as [evs [E F]].
    { unfold Market.main_body.
      apply stops_bind; [apply market_sync_account_stops |].
      intros _. apply market_sync_account_stops. }
    exists (DownloadStock :: evs). rewrite E, <- app_assoc.
    split; [reflexivity |].
    intros pre ev post e H He.
    destruct pre as [| p pre]; cbn in H; injection H as <- H.
    + rewrite app_nil_r in He. cbn in He. rewrite Hd in He. discriminate.
    + right. split; [discriminate |].
      apply (F pre ev post e H).
      now rewrite <- app_assoc.
  - exists [DownloadStock]. split; [reflexivity |].
    intros pre ev post e H He.
    destruct pre as [| p pre]; cbn in H.
    + injection H as <- <-. rewrite app_nil_r in He. cbn in He.
      rewrite Hd in He. injection He as <-. left. repeat split.
    + injection H as _ H. now destruct pre.
Qed.

Lemma seller_main_stops_at_first_failure_witness :
  let error := Exn HTTPError "500 Server Error" in
  exists evs,
    fst (Seller.main "token" "client"
                     (rejecting_world scenario_ids scenario_rows error) [])
    = [] ++ evs /\
    skipn 3 evs = [Print (report error)].
Proof.
  intros error.
  destruct (seller_main_stops_at_first_failure
              "token" "client" (rejecting_world scenario_ids scenario_rows error) [])
    as [evs [E F]].
  exists evs. split; [exact E |].
  cbn in E. subst evs. cbn [skipn].
  eapply (F [GetOfferIds "client" "token"; DownloadStock]); reflexivity.
Defined.

Lemma market_main_stops_at_first_failure_witness :
  let error := Exn HTTPError "500 Server Error" in
  (exists evs,
      fst (Market.main "token" "fbs" "dbs" "wh-fbs" "wh-dbs"
                       (rejecting_world scenario_ids scenario_rows error) [])
      = [] ++ evs /\
      skipn 3 evs = [Print (report error)]) /\
  snd (Market.main "token" "fbs" "dbs" "wh-fbs" "wh-dbs"
                   (offline_world scenario_ids error) [])
  = Raise error.
Proof.
  intros error. split.
  - destruct (market_main_stops_at_first_failure
                "token" "fbs" "dbs" "wh-fbs" "wh-dbs"
                (rejecting_world scenario_ids scenario_rows error) [])
      as [evs [E F]].
    exists evs. split; [exact E |].
    cbn in E. subst evs. cbn [skipn].
    edestruct (F [DownloadStock; GetOfferIds "fbs" "token"]) as [[Habs _] | [_ H]];
      [reflexivity | reflexivity | discriminate Habs | exact H].
  - destruct (market_main_stops_at_first_failure
                "token" "fbs" "dbs" "wh-fbs" "wh-dbs"
                (offline_world scenario_ids error) [])
      as [evs [E F]].
    cbn in E. subst evs.
    edestruct (F [] DownloadStock []) as [[_ [_ [_ H]]] | [Habs _]];
      [reflexivity | reflexivity | exact H | now contradiction Habs].
Defined.

(** ** Data errors of the transforms end in the generic line *)

(** X10.  An unreadable quantity.  When the catalogue and the spreadsheet
    were fetched and [create_stocks] raises, a run of [main] of seller.py
    consists of the two fetches and the line [ERROR_2] with the
    exception: no stock and no price is uploaded.  In market.py the same
    happens in the FBS account, and the DBS account is not started. *)
Theorem transform_error_reported :
  (forall seller_token client_id w tr offer_ids watch_remnants e,
      on_get_offer_ids w tr client_id seller_token = Ok offer_ids ->
      on_download_stock w (tr ++ [GetOfferIds client_id seller_token])
      = Ok watch_remnants ->
      fst (Seller.create_stocks watch_remnants offer_ids) = Raise e ->
      Seller.main seller_token client_id w tr
      = (tr ++ [GetOfferIds client_id seller_token; DownloadStock;
                Print [PExn e; PStr "ERROR_2"]],
         Ok tt)) /\
  (forall market_token campaign_fbs_id campaign_dbs_id warehouse_fbs_id
          warehouse_dbs_id w tr offer_ids watch_remnants e,
      on_download_stock w tr = Ok watch_remnants ->
      on_get_offer_ids w (tr ++ [DownloadStock]) campaign_fbs_id market_token
      = Ok offer_ids ->
      fst (Market.create_stocks_at
             (on_utcnow w (tr ++ [DownloadStock]
                              ++ [GetOfferIds campaign_fbs_id market_token]))
             watch_remnants offer_ids warehouse_fbs_id) = Raise e ->
      Market.main market_token campaign_fbs_id campaign_dbs_id
                  warehouse_fbs_id warehouse_dbs_id w tr
      = (tr ++ [DownloadStock; GetOfferIds campaign_fbs_id market_token;
                Print [PExn e; PStr "ERROR_2"]],
         Ok tt)).
Proof.
  split.
  - intros seller_token client_id w tr offer_ids watch_remnants e Hids Hrows He.
    destruct (proj1 (proj1 create_stocks_failure watch_remnants offer_ids) e He)
      as [Hcls _].
    unfold Seller.main, try_except, Seller.main_body, bind, get_offer_ids,
      download_stock, lift.
    rewrite Hids, Hrows.
    destruct (Seller.create_stocks watch_remnants offer_ids) as [r left_ids].
    cbn in He. subst r. rewrite handlers_classify, <- !app_assoc.
    destruct Hcls as [-> | ->]; reflexivity.
  - intros market_token campaign_fbs_id campaign_dbs_id warehouse_fbs_id
           warehouse_dbs_id w tr offer_ids watch_remnants e Hrows Hids He.
    destruct (proj1 (proj2 create_stocks_failure _ warehouse_fbs_id
                           watch_remnants offer_ids) e He) as [Hcls _].
    unfold Market.main, try_except, Market.main_body, Market.sync_account, bind,
      get_offer_ids, download_stock, utcnow, lift.
    rewrite Hrows, Hids. rewrite <- app_assoc.
    destruct (Market.create_stocks_at _ watch_remnants offer_ids warehouse_fbs_id)
      as [r left_ids].
    cbn in He. subst r. rewrite handlers_classify, <- !app_assoc.
    destruct Hcls as [-> | ->]; reflexivity.
Qed.

Lemma transform_error_reported_witness :
  let rows := [[("Код", CStr "A"); ("Количество", CStr "нет")]] in
  Seller.main "token" "client" (calm_world ["A"] rows) []
  = ([GetOfferIds "client" "token"; DownloadStock;
      Print [PExn (Exn ValueError "нет"); PStr "ERROR_2"]],
     Ok tt) /\
  Market.main "token" "fbs" "dbs" "wh-fbs" "wh-dbs" (calm_world ["A"] rows) []
  = ([DownloadStock; GetOfferIds "fbs" "token";
      Print [PExn (Exn ValueError "нет"); PStr "ERROR_2"]],
     Ok tt).
Proof.
  intros rows. split.
  - apply (proj1 transform_error_reported "token" "client"
                 (calm_world ["A"] rows) [] ["A"] rows); reflexivity.
  - apply (proj2 transform_error_reported "token" "fbs" "dbs" "wh-fbs" "wh-dbs"
                 (calm_world ["A"] rows) [] ["A"] rows); reflexivity.
Defined.

(** ** Runs in which every call succeeds *)

Lemma for_each_all_ok {A} (call : A -> M unit) (ev : A -> event) (w : world) :
  (forall a tr, call a w tr = (tr ++ [ev a], Ok tt)) ->
  forall (l : list A) (tr : list event),
    for_each l call w tr = (tr ++ map ev l, Ok tt).
Proof.
  intros Hcall. induction l as [| x l IH]; intros tr; cbn [for_each map].
  - cbn. now rewrite app_nil_r.
  - unfold bind. rewrite Hcall, IH, <- app_assoc. reflexivity.
Qed.

Lemma create_stocks_with_length (stock_record : string -> Z -> json)
      (watch_remnants : list row) (offer_ids : list string)
      (out : list json) (left_ids : list string) :
  create_stocks_with stock_record watch_remnants offer_ids = (Ok out, left_ids) ->
  List.length out = List.length offer_ids.
Proof.
  intros H. destruct (create_stocks_with_ok _ _ _ _ _ H) as [matched [-> [HP _]]].
  rewrite (Permutation_length HP), length_map, !length_app, !length_map.
  reflexivity.
Qed.

Lemma divide_count {A} (lst : list A) (n : Z) (chunks : list (list A)) :
  (0 < n)%Z -> divide lst n = Ok chunks ->
  Z.of_nat (List.length chunks) = ceil_div (Z.of_nat (List.length lst)) n.
Proof.
  intros Hn H. destruct (divide_batches A lst n Hn) as (chunks' & H' & Hc & _).
  rewrite H in H'. injection H' as <-. exact Hc.
Qed.

(** X11.  A successful run of seller.py.  When every call succeeds and both
    transforms return, [main] makes, in this order: one catalogue call,
    one download, one [update_stocks] call per chunk of 100 stock
    records, which is [ceil(N / 100)] calls for [N] known offer ids, and
    one [update_price] call per chunk of 900 price records; it prints
    nothing and ends normally. *)
Theorem seller_main_successful_run :
  forall seller_token client_id w tr offer_ids watch_remnants
         stocks left_ids prices left_ids',
    uploads_succeed w ->
    on_get_offer_ids w tr client_id seller_token = Ok offer_ids ->
    on_download_stock w (tr ++ [GetOfferIds client_id seller_token])
    = Ok watch_remnants ->
    Seller.create_stocks watch_remnants offer_ids = (Ok stocks, left_ids) ->
    Seller.create_prices watch_remnants left_ids = (Ok prices, left_ids') ->
    exists stock_chunks price_chunks,
      divide stocks 100 = Ok stock_chunks /\
      divide prices 900 = Ok price_chunks /\
      Seller.main seller_token client_id w tr
      = (tr ++ [GetOfferIds client_id seller_token; DownloadStock]
            ++ map (fun c => UpdateStocks c client_id seller_token) stock_chunks
            ++ map (fun c => UpdatePrice c client_id seller_token) price_chunks,
         Ok tt) /\
      Z.of_nat (List.length stock_chunks)
      = ceil_div (Z.of_nat (List.length offer_ids)) 100.
Proof.
  intros seller_token client_id w tr offer_ids watch_remnants
         stocks left_ids prices left_ids' [Hus Hup] Hids Hrows Hstocks Hprices.
  destruct (divide_positive stocks 100 eq_refl) as [schunks Hsd].
  destruct (divide_positive prices 900 eq_refl) as [pchunks Hpd].
  exists schunks, pchunks. split; [exact Hsd |]. split; [exact Hpd |]. split.
  - unfold Seller.main, try_except, Seller.main_body, bind, get_offer_ids,
      download_stock, lift.
    rewrite Hids, Hrows, Hstocks, Hsd.
    rewrite (for_each_all_ok
               (fun c => update_stocks c client_id seller_token)
               (fun c => UpdateStocks c client_id seller_token) w).
    2: { intros a tr'. unfold update_stocks. now rewrite Hus. }
    rewrite Hprices, Hpd.
    rewrite (for_each_all_ok
               (fun c => update_price c client_id seller_token)
               (fun c => UpdatePrice c client_id seller_token) w).
    2: { intros a tr'. unfold update_price. now rewrite Hup. }
    rewrite <- !app_assoc. reflexivity.
  - rewrite (divide_count stocks 100 _ eq_refl Hsd).
    now rewrite (create_stocks_with_length _ _ _ _ _ Hstocks).
Qed.

Lemma seller_main_successful_run_witness :
  exists stock_chunks price_chunks,
    Seller.main "token" "client" scenario_world []
    = ([GetOfferIds "client" "token"; DownloadStock]
         ++ map (fun c => UpdateStocks c "client" "token") stock_chunks
         ++ map (fun c => UpdatePrice c "client" "token") price_chunks,
       Ok tt) /\
    Z.of_nat (List.length stock_chunks) = ceil_div 3 100.
Proof.
  destruct (seller_main_successful_run
              "token" "client" scenario_world [] scenario_ids scenario_rows
              [Seller.stock_record "A" 100; Seller.stock_record "B" 0;
               Seller.stock_record "C" 0] ["C"] [] ["C"])
    as (sc & pc & _ & _ & Hrun & Hcount);
    try reflexivity.
  - split; reflexivity.
  - exists sc, pc. split; [exact Hrun | exact Hcount].
Defined.



(** ** Catalogue pagination *)

Lemma map_result_all {A B} (f : A -> result B) (g : A -> B) (l : list A) :
  (forall x, In x l -> f x = Ok (g x)) -> map_result f l = Ok (map g l).
Proof.
  induction l as [| x l IH]; intros H; cbn; [reflexivity |].
  rewrite (H x (or_introl eq_refl)), IH; [reflexivity |].
  intros y Hy. apply H. now right.
Qed.

Lemma map_result_length {A B} (f : A -> result B) (l : list A) (out : list B) :
  map_result f l = Ok out -> List.length out = List.length l.
Proof.
  revert out. induction l as [| x l IH]; intros out; cbn.
  - intros H. now injection H as <-.
  - destruct (f x); [| discriminate].
    destruct (map_result f l) as [ys |]; [| discriminate].
    intros H. injection H as <-. cbn. now rewrite (IH ys).
Qed.

Lemma scripted_next (done later : list (option json)) (reply : option json)
      (sent : list (option json)) (cursor : option json) (account token : string) :
  List.length sent = List.length done ->
  scripted (done ++ reply :: later) sent cursor account token = Ok reply.
Proof.
  intros H. unfold scripted.
  rewrite H, nth_error_app2, Nat.sub_diag by lia. reflexivity.
Qed.

Lemma seller_turn_reply (items : list json) (total : nat) (last_id : string)
      (product_list : list json) :
  SellerCatalogue.turn (SellerCatalogue.reply items total last_id) product_list
  = Ok (product_list ++ items,
        if Nat.eqb total (List.length (product_list ++ items)) then None
        else Some (Some (JStr last_id))).
Proof.
  unfold SellerCatalogue.turn, SellerCatalogue.reply. cbn.
  destruct (Z.eqb_spec (Z.of_nat total)
                       (Z.of_nat (List.length (product_list ++ items))))
    as [E | E];
    destruct (Nat.eqb_spec total (List.length (product_list ++ items)));
    try reflexivity; lia.
Qed.

Section SellerScript.

Variable total : nat.
Variables client_id seller_token : string.

Lemma seller_pages_run (pages : list (list json * string)) :
  forall (done rest : list (option json)) (sent : list (option json))
         (cursor : option json) (product_list : list json) (fuel : nat),
    pages <> [] ->
    List.length sent = List.length done ->
    List.length pages <= fuel ->
    (forall k, 0 < k < List.length pages ->
               List.length product_list
               + List.length (flat_map fst (firstn k pages)) < total) ->
    List.length product_list + List.length (flat_map fst pages) = total ->
    SellerCatalogue.product_pages
      fuel
      (scripted (done
                   ++ map (fun p => SellerCatalogue.reply (fst p) total (snd p)) pages
                   ++ rest))
      client_id seller_token sent cursor product_list
    = (sent ++ cursor :: map (fun p => Some (JStr (snd p))) (removelast pages),
       Some (Ok (product_list ++ flat_map fst pages))).
Proof.
  induction pages as [| [items last_id] pages IH];
    intros done rest sent cursor product_list fuel Hne Hlen Hfuel Hpre Hall;
    [contradiction |].
  destruct fuel as [| fuel]; [cbn in Hfuel; lia |].
  cbn [SellerCatalogue.product_pages map app].
  rewrite (scripted_next done _ _ sent) by exact Hlen.
  cbn [result_bind fst snd]. rewrite seller_turn_reply.
  cbn [flat_map fst] in Hall. rewrite length_app in Hall.
  destruct pages as [| page pages].
  - cbn [flat_map List.length removelast map] in *. rewrite app_nil_r.
    rewrite length_app.
    destruct (Nat.eqb_spec total
                (List.length product_list + List.length items)); [| lia].
    reflexivity.
  - assert (H1 : List.length (product_list ++ items) < total).
    { specialize (Hpre 1 ltac:(cbn; lia)). cbn in Hpre.
      rewrite app_nil_r in Hpre. now rewrite length_app. }
    destruct (Nat.eqb_spec total (List.length (product_list ++ items))); [lia |].
    replace (done ++ SellerCatalogue.reply items total last_id
                  :: map (fun p => SellerCatalogue.reply (fst p) total (snd p))
                         (page :: pages) ++ rest)
      with ((done ++ [SellerCatalogue.reply items total last_id])
              ++ map (fun p => SellerCatalogue.reply (fst p) total (snd p))
                     (page :: pages) ++ rest)
      by now rewrite <- app_assoc.
    rewrite IH.
    + rewrite <- !app_assoc.
      change (removelast ((items, last_id) :: page :: pages))
        with ((items, last_id) :: removelast (page :: pages)).
      reflexivity.
    + discriminate.
    + rewrite !length_app. cbn. lia.
    + cbn in Hfuel |- *. lia.
    + intros k Hk. specialize (Hpre (S k) ltac:(cbn in *; lia)).
      cbn [firstn flat_map fst] in Hpre.
      rewrite !length_app in *. lia.
    + rewrite !length_app in *. lia.
Qed.

End SellerScript.

(** X13.  seller.py fetches the whole catalogue.  Against a catalogue that
    reports the same total on each page and whose pages hold that many
    products, every page but the last leaving the count short,
    [get_offer_ids] returns the ["offer_id"] of every product in page
    order ([None] for a product that has none).  It sends one request per
    page, the first with the cursor [""], each later one with the
    ["last_id"] of the reply before, and ignores what the catalogue would
    answer next; a fuel of the number of pages is enough. *)
Theorem seller_get_offer_ids_complete :
  forall (pages : list (list json * string)) (rest : list (option json))
         (total fuel : nat) (client_id seller_token : string),
    pages <> [] ->
    List.length (flat_map fst pages) = total ->
    (forall k, 0 < k < List.length pages ->
               List.length (flat_map fst (firstn k pages)) < total) ->
    (forall product, In product (flat_map fst pages) ->
                     exists d, product = JDict d) ->
    List.length pages <= fuel ->
    SellerCatalogue.get_offer_ids
      fuel
      (scripted (map (fun p => SellerCatalogue.reply (fst p) total (snd p)) pages
                   ++ rest))
      client_id seller_token
    = (Some (JStr "") :: map (fun p => Some (JStr (snd p))) (removelast pages),
       Some (Ok (map (field "offer_id") (flat_map fst pages)))).
Proof.
  intros pages rest total fuel client_id seller_token Hne Htotal Hpre Hdict Hfuel.
  unfold SellerCatalogue.get_offer_ids.
  pose proof (seller_pages_run total client_id seller_token pages [] rest []
                (Some (JStr "")) [] fuel Hne eq_refl Hfuel Hpre Htotal) as Hrun.
  cbn [app] in Hrun. rewrite Hrun. f_equal. f_equal.
  apply map_result_all. intros product Hp.
  destruct (Hdict product Hp) as [d ->]. reflexivity.
Qed.

Lemma seller_get_offer_ids_complete_witness :
  SellerCatalogue.get_offer_ids
    5
    (scripted
       [SellerCatalogue.reply [JDict [("offer_id", JStr "A")];
                               JDict [("offer_id", JStr "B")]] 3 "cursor-1";
        SellerCatalogue.reply [JDict [("product_id", JInt 7)]] 3 "cursor-2";
        SellerCatalogue.reply [JDict [("offer_id", JStr "Z")]] 3 "cursor-3"])
    "client" "token"
  = ([Some (JStr ""); Some (JStr "cursor-1")],
     Some (Ok [Some (JStr "A"); Some (JStr "B"); None])).
Proof.
  apply (seller_get_offer_ids_complete
           [([JDict [("offer_id", JStr "A")]; JDict [("offer_id", JStr "B")]],
             "cursor-1");
            ([JDict [("product_id", JInt 7)]], "cursor-2")]
           [SellerCatalogue.reply [JDict [("offer_id", JStr "Z")]] 3 "cursor-3"]
           3 5 "client" "token").
  - discriminate.
  - reflexivity.
  - intros k Hk. cbn in Hk. assert (k = 1) as -> by lia. cbn. lia.
  - intros product Hp. cbn in Hp.
    destruct Hp as [<- | [<- | [<- | []]]]; eexists; reflexivity.
  - cbn. lia.
Defined.

Lemma py_get_error (key : string) (o : option json) (e : exn) :
  py_get key o = Raise e -> exn_cls e = AttributeError.
Proof.
  destruct o as [[s | z | l | d] |]; cbn; try discriminate;
    intros H; injection H as <-; reflexivity.
Qed.

Lemma py_iter_error (v : option json) (e : exn) :
  py_iter v = Raise e -> exn_cls e = TypeError.
Proof.
  destruct v as [[s | z | l | d] |]; cbn; try discriminate;
    intros H; injection H as <-; reflexivity.
Qed.

Lemma map_result_error {A B} (f : A -> result B) (l : list A) (e : exn) :
  map_result f l = Raise e -> exists x, In x l /\ f x = Raise e.
Proof.
  induction l as [| x l IH]; cbn; [discriminate |].
  destruct (f x) as [y | e'] eqn:Hx.
  - destruct (map_result f l) as [ys | e'']; [discriminate |].
    intros H. injection H as ->. destruct (IH eq_refl) as [x' [Hin Hr]].
    exists x'. split; [now right | exact Hr].
  - intros H. injection H as ->. exists x. split; [now left | exact Hx].
Qed.

Lemma map_result_ok {A B} (f : A -> result B) (l : list A) (out : list B) :
  map_result f l = Ok out -> forall x, In x l -> is_ok (f x) = true.
Proof.
  revert out. induction l as [| x l IH]; intros out; cbn; [intros _ y [] |].
  destruct (f x) as [y | e] eqn:Hx; [| discriminate].
  destruct (map_result f l) as [ys | e]; [| discriminate].
  intros _ x' [<- | Hin]; [now rewrite Hx | exact (IH ys eq_refl x' Hin)].
Qed.

Lemma seller_turn_error (some_prod : option json) (product_list : list json)
      (e : exn) :
  SellerCatalogue.turn some_prod product_list = Raise e ->
  exn_cls e = AttributeError \/ exn_cls e = TypeError.
Proof.
  unfold SellerCatalogue.turn.
  destruct (py_get "items" some_prod) as [items |] eqn:H1; cbn [result_bind].
  2: { intros H. injection H as <-. left. exact (py_get_error _ _ _ H1). }
  destruct (py_iter items) as [l |] eqn:H2; cbn [result_bind].
  2: { intros H. injection H as <-. right. exact (py_iter_error _ _ H2). }
  destruct (py_get "total" some_prod) as [total |] eqn:H3; cbn [result_bind].
  2: { intros H. injection H as <-. left. exact (py_get_error _ _ _ H3). }
  destruct (py_get "last_id" some_prod) as [last |] eqn:H4; cbn [result_bind].
  2: { intros H. injection H as <-. left. exact (py_get_error _ _ _ H4). }
  destruct (py_eq_len _ _); discriminate.
Qed.

Lemma seller_turn_done (some_prod : option json) (product_list out : list json) :
  SellerCatalogue.turn some_prod product_list = Ok (out, None) ->
  py_get "total" some_prod = Ok (Some (JInt (Z.of_nat (List.length out)))).
Proof.
  unfold SellerCatalogue.turn.
  destruct (py_get "items" some_prod) as [items |]; [| discriminate].
  cbn [result_bind].
  destruct (py_iter items) as [l |]; [| discriminate]. cbn [result_bind].
  destruct (py_get "total" some_prod) as [total |]; [| discriminate].
  cbn [result_bind].
  destruct (py_get "last_id" some_prod) as [last |]; [| discriminate].
  cbn [result_bind].
  destruct (py_eq_len total (List.length (product_list ++ l))) eqn:Heq;
    [| discriminate].
  intros H. injection H as <-.
  destruct total as [[s | z | l' | d] |]; try discriminate Heq.
  cbn in Heq. apply Z.eqb_eq in Heq. now subst z.
Qed.

Section SellerLoop.

Variable get_product_list : catalogue.
Variables client_id seller_token : string.

(** What the loop of seller.py has done when it returns or raises. *)
Lemma seller_pages_end (fuel : nat) :
  forall (sent : list (option json)) (last_id : option json)
         (product_list : list json) (sent' : list (option json))
         (r : result (list json)),
    SellerCatalogue.product_pages fuel get_product_list client_id seller_token
                                  sent last_id product_list
    = (sent', Some r) ->
    exists before cursor,
      sent' = before ++ [cursor] /\
      (exists mid, sent' = sent ++ last_id :: mid) /\
      match r with
      | Ok out =>
          exists some_prod,
            get_product_list before cursor client_id seller_token = Ok some_prod /\
            py_get "total" some_prod
            = Ok (Some (JInt (Z.of_nat (List.length out))))
      | Raise e =>
          get_product_list before cursor client_id seller_token = Raise e \/
          exn_cls e = AttributeError \/ exn_cls e = TypeError
      end.
Proof.
  induction fuel as [| fuel IH]; intros sent last_id product_list sent' r;
    cbn [SellerCatalogue.product_pages]; [discriminate |].
  destruct (get_product_list sent last_id client_id seller_token)
    as [some_prod | e] eqn:Hreq; cbn [result_bind].
  - destruct (SellerCatalogue.turn some_prod product_list)
      as [[out [next |]] | e] eqn:Hturn.
    + intros H. destruct (IH _ _ _ _ _ H) as (before & cursor & E & [mid Hm] & Hr).
      exists before, cursor. split; [exact E |]. split; [| exact Hr].
      exists (next :: mid). rewrite Hm, <- app_assoc. reflexivity.
    + intros H. injection H as <- <-. exists sent, last_id.
      split; [reflexivity |]. split; [now exists [] |].
      exists some_prod. split; [exact Hreq | exact (seller_turn_done _ _ _ Hturn)].
    + intros H. injection H as <- <-. exists sent, last_id.
      split; [reflexivity |]. split; [now exists [] |].
      right. exact (seller_turn_error _ _ _ Hturn).
  - intros H. injection H as <- <-. exists sent, last_id.
    split; [reflexivity |]. split; [now exists [] |]. now left.
Qed.

End SellerLoop.

(** X14.  How many ids seller.py returns.  Whenever [get_offer_ids]
    returns, in any catalogue, its first request carried the cursor [""]
    and the number of ids it returns is the ["total"] of the reply to its
    last request. *)
Theorem seller_get_offer_ids_count :
  forall (fuel : nat) (get_product_list : catalogue)
         (client_id seller_token : string)
         (sent : list (option json)) (offer_ids : list (option json)),
    SellerCatalogue.get_offer_ids fuel get_product_list client_id seller_token
    = (sent, Some (Ok offer_ids)) ->
    hd_error sent = Some (Some (JStr "")) /\
    exists before cursor some_prod,
      sent = before ++ [cursor] /\
      get_product_list before cursor client_id seller_token = Ok some_prod /\
      py_get "total" some_prod
      = Ok (Some (JInt (Z.of_nat (List.length offer_ids)))).
Proof.
  intros fuel get_product_list client_id seller_token sent offer_ids.
  unfold SellerCatalogue.get_offer_ids.
  destruct (SellerCatalogue.product_pages fuel get_product_list client_id
                                          seller_token [] (Some (JStr "")) [])
    as [sent' [[out | e] |]] eqn:Hrun; try discriminate.
  intros H. injection H as <- Hids.
  destruct (seller_pages_end _ _ _ _ _ _ _ _ _ Hrun)
    as (before & cursor & E & [mid Hm] & some_prod & Hreq & Htot).
  split; [now rewrite Hm |].
  exists before, cursor, some_prod. split; [exact E |]. split; [exact Hreq |].
  now rewrite (map_result_length _ _ _ Hids).
Qed.

Lemma seller_get_offer_ids_count_witness :
  hd_error [Some (JStr ""); Some (JStr "cursor-1")] = Some (Some (JStr "")) /\
  exists before cursor some_prod,
    [Some (JStr ""); Some (JStr "cursor-1")] = before ++ [cursor] /\
    scripted
      [SellerCatalogue.reply [JDict [("offer_id", JStr "A")];
                              JDict [("offer_id", JStr "B")]] 3 "cursor-1";
       SellerCatalogue.reply [JDict [("offer_id", JStr "C")]] 3 "cursor-2"]
      before cursor "client" "token" = Ok some_prod /\
    py_get "total" some_prod = Ok (Some (JInt 3)).
Proof.
  apply (seller_get_offer_ids_count
           2
           (scripted
              [SellerCatalogue.reply [JDict [("offer_id", JStr "A")];
                                      JDict [("offer_id", JStr "B")]] 3 "cursor-1";
               SellerCatalogue.reply [JDict [("offer_id", JStr "C")]] 3 "cursor-2"])
           "client" "token" _ [Some (JStr "A"); Some (JStr "B"); Some (JStr "C")]).
  reflexivity.
Defined.

(** X15.  Errors of seller.py's [get_offer_ids].  Whenever it raises an
    exception that is neither an [AttributeError] nor a [TypeError] (the
    two a malformed reply causes), that exception is the answer to the
    last request it sent: a transport or HTTP error of any page ends the
    fetch, and the products of the pages before are dropped. *)
Theorem seller_get_offer_ids_error :
  forall (fuel : nat) (get_product_list : catalogue)
         (client_id seller_token : string)
         (sent : list (option json)) (e : exn),
    SellerCatalogue.get_offer_ids fuel get_product_list client_id seller_token
    = (sent, Some (Raise e)) ->
    exn_cls e <> AttributeError ->
    exn_cls e <> TypeError ->
    exists before cursor,
      sent = before ++ [cursor] /\
      get_product_list before cursor client_id seller_token = Raise e.
Proof.
  intros fuel get_product_list client_id seller_token sent e.
  unfold SellerCatalogue.get_offer_ids.
  destruct (SellerCatalogue.product_pages fuel get_product_list client_id
                                          seller_token [] (Some (JStr "")) [])
    as [sent' [[out | e'] |]] eqn:Hrun; try discriminate.
  - intros H Ha _. injection H as <- Hids.
    destruct (map_result_error _ _ _ Hids) as [x [_ Hx]].
    exfalso. apply Ha. exact (py_get_error "offer_id" (Some x) e Hx).
  - intros H Ha Ht. injection H as <- <-.
    destruct (seller_pages_end _ _ _ _ _ _ _ _ _ Hrun)
      as (before & cursor & E & _ & [Hreq | [Hc | Hc]]);
      [| contradiction | contradiction].
    now exists before, cursor.
Qed.

Lemma seller_get_offer_ids_error_witness :
  exists before cursor,
    [Some (JStr ""); Some (JStr "cursor-1")] = before ++ [cursor] /\
    scripted [SellerCatalogue.reply [JDict [("offer_id", JStr "A")]] 2 "cursor-1"]
             before cursor "client" "token"
    = Raise (Exn HTTPError "429 Too Many Requests").
Proof.
  apply (seller_get_offer_ids_error
           5
           (scripted [SellerCatalogue.reply [JDict [("offer_id", JStr "A")]]
                                            2 "cursor-1"])
           "client" "token").
  - reflexivity.
  - discriminate.
  - discriminate.
Defined.

Lemma seller_turn_continue (d : list (string * json)) (items : list json)
      (z : Z) (product_list : list json) :
  json_get "items" d = Some (JList items) ->
  json_get "total" d = Some (JInt z) ->
  z <> Z.of_nat (List.length (product_list ++ items)) ->
  SellerCatalogue.turn (Some (JDict d)) product_list
  = Ok (product_list ++ items, Some (json_get "last_id" d)).
Proof.
  intros Hi Ht Hz. unfold SellerCatalogue.turn. cbn [py_get result_bind].
  rewrite Hi. cbn [py_iter result_bind]. rewrite Ht. cbn [py_eq_len].
  destruct (Z.eqb_spec z (Z.of_nat (List.length (product_list ++ items))));
    [contradiction | reflexivity].
Qed.

(** X16.  seller.py's loop ends on equality only.  In a catalogue whose
    replies never report a total above [t], once the first page holds
    more than [t] products [get_offer_ids] never returns: whatever the
    fuel, it has spent it all on requests and is still running. *)
Theorem seller_get_offer_ids_overshoot :
  forall (get_product_list : catalogue) (client_id seller_token : string)
         (t : nat),
    (forall sent cursor, exists d items z,
        get_product_list sent cursor client_id seller_token = Ok (Some (JDict d)) /\
        json_get "items" d = Some (JList items) /\
        json_get "total" d = Some (JInt z) /\
        (z <= Z.of_nat t)%Z) ->
    (forall d items,
        get_product_list [] (Some (JStr "")) client_id seller_token
        = Ok (Some (JDict d)) ->
        json_get "items" d = Some (JList items) ->
        t < List.length items) ->
    forall fuel, exists sent,
      SellerCatalogue.get_offer_ids fuel get_product_list client_id seller_token
      = (sent, None) /\
      List.length sent = fuel.
Proof.
  intros get_product_list client_id seller_token t Hall Hfirst.
  assert (Hloop : forall fuel sent cursor product_list,
             t < List.length product_list ->
             exists sent',
               SellerCatalogue.product_pages fuel get_product_list client_id
                                             seller_token sent cursor product_list
               = (sent', None) /\
               List.length sent' = List.length sent + fuel).
  { induction fuel as [| fuel IH]; intros sent cursor product_list Hlen.
    - exists sent. split; [reflexivity | lia].
    - cbn [SellerCatalogue.product_pages].
      destruct (Hall sent cursor) as (d & items & z & Hreq & Hi & Ht & Hz).
      rewrite Hreq. cbn [result_bind].
      rewrite (seller_turn_continue d items z product_list Hi Ht)
        by (rewrite length_app; lia).
      destruct (IH (sent ++ [cursor]) (json_get "last_id" d)
                   (product_list ++ items)) as [sent' [E L]];
        [rewrite length_app; lia |].
      exists sent'. split; [exact E |]. rewrite L, length_app. cbn. lia. }
  intros fuel. unfold SellerCatalogue.get_offer_ids.
  destruct fuel as [| fuel]; [now exists [] |].
  cbn [SellerCatalogue.product_pages].
  destruct (Hall [] (Some (JStr ""))) as (d & items & z & Hreq & Hi & Ht & Hz).
  rewrite Hreq. cbn [result_bind].
  pose proof (Hfirst d items Hreq Hi) as Hmany.
  rewrite (seller_turn_continue d items z [] Hi Ht) by (cbn; lia).
  destruct (Hloop fuel ([] ++ [Some (JStr "")]) (json_get "last_id" d)
                  ([] ++ items) Hmany) as [sent' [E L]].
  rewrite E. exists sent'. split; [reflexivity |]. rewrite L. cbn. lia.
Qed.

Lemma seller_get_offer_ids_overshoot_witness :
  exists sent,
    SellerCatalogue.get_offer_ids
      7
      (fun _ _ _ _ =>
         Ok (SellerCatalogue.reply [JDict [("offer_id", JStr "A")];
                                    JDict [("offer_id", JStr "B")]] 1 "next"))
      "client" "token"
    = (sent, None) /\
    List.length sent = 7.
Proof.
  apply (seller_get_offer_ids_overshoot _ "client" "token" 1).
  - intros sent cursor. do 3 eexists. split; [reflexivity |].
    split; [reflexivity |]. split; [reflexivity | reflexivity].
  - intros d items H Hi. injection H as <-. cbn in Hi. injection Hi as <-.
    cbn. lia.
Defined.

Lemma market_turn_reply (entries : list json) (token : string)
      (product_list : list json) :
  MarketCatalogue.turn (MarketCatalogue.reply entries token) product_list
  = Ok (product_list ++ entries,
        if String.eqb token "" then None else Some (Some (JStr token))).
Proof.
  unfold MarketCatalogue.turn, MarketCatalogue.reply. cbn.
  destruct (String.eqb token "") eqn:E; cbn; [reflexivity |].
  now rewrite E.
Qed.

Section MarketScript.

Variables campaign_id market_token : string.
Variable last_entries : list json.

Lemma market_pages_run (pages : list (list json * string)) :
  forall (done rest : list (option json)) (sent : list (option json))
         (cursor : option json) (product_list : list json) (fuel : nat),
    List.length sent = List.length done ->
    List.length pages < fuel ->
    (forall p, In p pages -> snd p <> "") ->
    MarketCatalogue.product_pages
      fuel
      (scripted (done
                   ++ map (fun p => MarketCatalogue.reply (fst p) (snd p)) pages
                   ++ MarketCatalogue.reply last_entries "" :: rest))
      campaign_id market_token sent cursor product_list
    = (sent ++ cursor :: map (fun p => Some (JStr (snd p))) pages,
       Some (Ok (product_list ++ flat_map fst pages ++ last_entries))).
Proof.
  induction pages as [| [entries token] pages IH];
    intros done rest sent cursor product_list fuel Hlen Hfuel Htok;
    (destruct fuel as [| fuel]; [cbn in Hfuel; lia |]);
    cbn [MarketCatalogue.product_pages map app].
  - rewrite (scripted_next done _ _ sent) by exact Hlen.
    cbn [result_bind]. rewrite market_turn_reply. reflexivity.
  - rewrite (scripted_next done _ _ sent) by exact Hlen.
    cbn [result_bind fst snd]. rewrite market_turn_reply.
    destruct (String.eqb_spec token "") as [E | _].
    { exfalso. exact (Htok (entries, token) (or_introl eq_refl) E). }
    replace (done ++ MarketCatalogue.reply entries token
                  :: map (fun p => MarketCatalogue.reply (fst p) (snd p)) pages
                  ++ MarketCatalogue.reply last_entries "" :: rest)
      with ((done ++ [MarketCatalogue.reply entries token])
              ++ map (fun p => MarketCatalogue.reply (fst p) (snd p)) pages
              ++ MarketCatalogue.reply last_entries "" :: rest)
      by now rewrite <- app_assoc.
    rewrite IH.
    + cbn [flat_map fst]. rewrite <- !app_assoc. reflexivity.
    + rewrite !length_app. cbn. lia.
    + cbn in Hfuel. lia.
    + intros p Hp. apply Htok. now right.
Qed.

End MarketScript.

Lemma shop_sku_error (entry : json) (e : exn) :
  MarketCatalogue.shop_sku entry = Raise e -> exn_cls e = AttributeError.
Proof.
  unfold MarketCatalogue.shop_sku.
  destruct (py_get "offer" (Some entry)) as [offer |] eqn:H1; cbn [result_bind].
  - apply py_get_error.
  - intros H. injection H as <-. exact (py_get_error _ _ _ H1).
Qed.

Lemma shop_sku_no_offer (entry : json) :
  field "offer" entry = None -> is_ok (MarketCatalogue.shop_sku entry) = false.
Proof.
  unfold MarketCatalogue.shop_sku, field.
  destruct entry as [s | z | l | d]; cbn; try reflexivity.
  intros ->. reflexivity.
Qed.

(** X17.  market.py fetches the whole catalogue.  Against a catalogue whose
    pages each carry a non-empty next page token, followed by a page that
    carries none, [get_offer_ids] returns the offer/shopSku of every
    entry of these pages in order ([None] for an offer without one).  It
    sends one request per page, the first with the token [""], each
    later one with the token of the reply before, and stops at the first
    page without a token whatever the catalogue would answer next; a
    fuel of the number of pages is enough. *)
Theorem market_get_offer_ids_complete :
  forall (pages : list (list json * string)) (last_entries : list json)
         (rest : list (option json)) (fuel : nat)
         (campaign_id market_token : string),
    (forall p, In p pages -> snd p <> "") ->
    (forall entry, In entry (flat_map fst pages ++ last_entries) ->
                   exists d offer,
                     entry = JDict d /\ json_get "offer" d = Some (JDict offer)) ->
    List.length pages < fuel ->
    MarketCatalogue.get_offer_ids
      fuel
      (scripted (map (fun p => MarketCatalogue.reply (fst p) (snd p)) pages
                   ++ MarketCatalogue.reply last_entries "" :: rest))
      campaign_id market_token
    = (Some (JStr "") :: map (fun p => Some (JStr (snd p))) pages,
       Some (Ok (map offer_sku (flat_map fst pages ++ last_entries)))).
Proof.
  intros pages last_entries rest fuel campaign_id market_token Htok Hshape Hfuel.
  unfold MarketCatalogue.get_offer_ids.
  pose proof (market_pages_run campaign_id market_token last_entries pages [] rest
                [] (Some (JStr "")) [] fuel eq_refl Hfuel Htok) as Hrun.
  cbn [app] in Hrun. rewrite Hrun. f_equal. f_equal.
  apply map_result_all. intros entry He.
  destruct (Hshape entry He) as (d & offer & -> & Ho).
  unfold MarketCatalogue.shop_sku, offer_sku. cbn. rewrite Ho. reflexivity.
Qed.

Lemma market_get_offer_ids_complete_witness :
  MarketCatalogue.get_offer_ids
    3
    (scripted [MarketCatalogue.reply [MarketCatalogue.entry "SKU_1";
                                      MarketCatalogue.entry "SKU_2"] "page-2";
               MarketCatalogue.reply [JDict [("offer", JDict [])]] "";
               MarketCatalogue.reply [MarketCatalogue.entry "SKU_9"] ""])
    "campaign" "token"
  = ([Some (JStr ""); Some (JStr "page-2")],
     Some (Ok [Some (JStr "SKU_1"); Some (JStr "SKU_2"); None])).
Proof.
  apply (market_get_offer_ids_complete
           [([MarketCatalogue.entry "SKU_1"; MarketCatalogue.entry "SKU_2"],
             "page-2")]
           [JDict [("offer", JDict [])]]
           [MarketCatalogue.reply [MarketCatalogue.entry "SKU_9"] ""]
           3 "campaign" "token").
  - intros p [<- | []]. discriminate.
  - intros entry He. cbn in He.
    destruct He as [<- | [<- | [<- | []]]]; do 2 eexists; split; reflexivity.
  - cbn. lia.
Defined.

(** X18.  An entry without an offer.  Against the same catalogue, when one
    entry of the pages fetched has no ["offer"], market.py's
    [get_offer_ids] makes the same requests and then raises an
    [AttributeError]: no id is returned. *)
Theorem market_get_offer_ids_missing_offer :
  forall (pages : list (list json * string)) (last_entries : list json)
         (rest : list (option json)) (fuel : nat)
         (campaign_id market_token : string) (entry : json),
    (forall p, In p pages -> snd p <> "") ->
    In entry (flat_map fst pages ++ last_entries) ->
    field "offer" entry = None ->
    List.length pages < fuel ->
    exists e,
      MarketCatalogue.get_offer_ids
        fuel
        (scripted (map (fun p => MarketCatalogue.reply (fst p) (snd p)) pages
                     ++ MarketCatalogue.reply last_entries "" :: rest))
        campaign_id market_token
      = (Some (JStr "") :: map (fun p => Some (JStr (snd p))) pages,
         Some (Raise e)) /\
      exn_cls e = AttributeError.
Proof.
  intros pages last_entries rest fuel campaign_id market_token entry
         Htok Hin Hno Hfuel.
  unfold MarketCatalogue.get_offer_ids.
  pose proof (market_pages_run campaign_id market_token last_entries pages [] rest
                [] (Some (JStr "")) [] fuel eq_refl Hfuel Htok) as Hrun.
  cbn [app] in Hrun. rewrite Hrun.
  destruct (map_result MarketCatalogue.shop_sku
                       (flat_map fst pages ++ last_entries))
    as [out | e] eqn:Hmap.
  - pose proof (map_result_ok _ _ _ Hmap entry Hin) as Hok.
    rewrite (shop_sku_no_offer entry Hno) in Hok. discriminate.
  - exists e. split; [reflexivity |].
    destruct (map_result_error _ _ _ Hmap) as [x [_ Hx]].
    exact (shop_sku_error _ _ Hx).
Qed.

Lemma market_get_offer_ids_missing_offer_witness :
  exists e,
    MarketCatalogue.get_offer_ids
      2
      (scripted [MarketCatalogue.reply [MarketCatalogue.entry "SKU_1";
                                        JDict [("mapping", JDict [])]] ""])
      "campaign" "token"
    = ([Some (JStr "")], Some (Raise e)) /\
    exn_cls e = AttributeError.
Proof.
  apply (market_get_offer_ids_missing_offer
           [] [MarketCatalogue.entry "SKU_1"; JDict [("mapping", JDict [])]] []
           2 "campaign" "token" (JDict [("mapping", JDict [])])).
  - intros p [].
  - cbn. right. now left.
  - reflexivity.
  - cbn. lia.
Defined.

(** ** Numbers printed and read back *)

Lemma uint_string_digits (d : Decimal.uint) :
  all_digits (DecimalString.NilEmpty.string_of_uint d) = true.
Proof. induction d; cbn; auto. Qed.

Lemma uint_acc_value (d : Decimal.uint) :
  forall acc : positive,
    Z.pos (Pos.of_uint_acc d acc)
    = fold_left (fun a c => (a * 10 + digit_value c)%Z)
                (list_ascii_of_string (DecimalString.NilEmpty.string_of_uint d))
                (Z.pos acc).
Proof.
  induction d; intros acc; cbn [Pos.of_uint_acc
                                 DecimalString.NilEmpty.string_of_uint
                                 list_ascii_of_string fold_left];
    [reflexivity | ..]; rewrite IHd; f_equal;
    match goal with
    | |- context [digit_value ?c] =>
        let v := eval vm_compute in (digit_value c) in
        change (digit_value c) with v
    end; lia.
Qed.

Lemma uint_value (d : Decimal.uint) :
  Z.of_N (Pos.of_uint d)
  = decimal_value (DecimalString.NilEmpty.string_of_uint d).
Proof.
  unfold decimal_value.
  induction d; cbn [Pos.of_uint DecimalString.NilEmpty.string_of_uint
                    list_ascii_of_string fold_left];
    [reflexivity | exact IHd | ..];
    cbn [Z.of_N]; rewrite uint_acc_value; reflexivity.
Qed.

Lemma pos_string (p : positive) :
  let s := DecimalString.NilEmpty.string_of_uint (Pos.to_uint p) in
  DecimalString.NilZero.string_of_uint (Pos.to_uint p) = s /\
  all_digits s = true /\ s <> "" /\ decimal_value s = Z.pos p.
Proof.
  intros s.
  assert (Hv : decimal_value s = Z.pos p).
  { subst s. rewrite <- uint_value, DecimalPos.Unsigned.of_to. reflexivity. }
  assert (Hne : s <> "").
  { intros E. rewrite E in Hv. discriminate Hv. }
  repeat split; [| apply uint_string_digits | exact Hne | exact Hv].
  subst s. destruct (Pos.to_uint p); try reflexivity. now contradiction Hne.
Qed.

Lemma strip_minus_digits (ds : list ascii) :
  Forall (fun c => is_digit c = true) ds -> ds <> [] ->
  strip ("-"%char :: ds) = "-"%char :: ds.
Proof.
  intros HF Hne. unfold strip.
  change (lstrip ("-"%char :: ds)) with ("-"%char :: ds).
  assert (Hrev : lstrip (rev ("-"%char :: ds)) = rev ("-"%char :: ds)).
  { cbn [rev]. destruct (rev ds) as [| x r] eqn:Hr.
    - apply (f_equal (@rev ascii)) in Hr. rewrite rev_involutive in Hr.
      contradiction.
    - cbn [app]. apply lstrip_digit_head.
      assert (Hx : In x (rev ds)) by (rewrite Hr; now left).
      apply in_rev in Hx. rewrite Forall_forall in HF. now apply HF. }
  rewrite Hrev. apply rev_involutive.
Qed.

(** [int(str(z))] is [z]. *)
Lemma int_of_str_py_str (z : Z) : int_of_str (py_str (Some (CInt z))) = Ok z.
Proof.
  destruct z as [| p | p]; [reflexivity | |]; cbn [py_str Z.to_int
                                                   DecimalString.NilZero.string_of_int];
    destruct (pos_string p) as (-> & Hd & Hne & Hv).
  - rewrite (int_of_str_digits _ Hd Hne), Hv. reflexivity.
  - unfold int_of_str, parse_int. cbn [list_ascii_of_string].
    pose proof (all_digits_Forall _ Hd) as HF.
    assert (Hl : list_ascii_of_string
                   (DecimalString.NilEmpty.string_of_uint (Pos.to_uint p)) <> []).
    { intros E. apply Hne.
      rewrite <- (string_of_list_ascii_of_string
                    (DecimalString.NilEmpty.string_of_uint (Pos.to_uint p))), E.
      reflexivity. }
    rewrite (strip_minus_digits _ HF Hl). cbn [Ascii.eqb Bool.eqb].
    rewrite (parse_digits_all _ HF) by now left.
    fold (decimal_value (DecimalString.NilEmpty.string_of_uint (Pos.to_uint p))).
    rewrite Hv. reflexivity.
Qed.

(** X19.  Numeric quantity cells.  When the quantity cell holds an integer
    rather than a string, the stock is 0 for the integer 1 and the
    integer itself otherwise: a numeric 15 stays 15 (only the text
    [">10"] gives 100), and a negative number is passed on as it is. *)
Theorem stock_count_int_cell :
  forall (watch : row) (z : Z),
    dict_get "Количество" watch = Some (CInt z) ->
    stock_count watch = Ok (if (z =? 1)%Z then 0%Z else z).
Proof.
  intros watch z Hq. unfold stock_count. rewrite Hq.
  pose proof (int_of_str_py_str z) as Hr.
  destruct (String.eqb_spec (py_str (Some (CInt z))) ">10") as [E | _].
  { rewrite E in Hr. discriminate Hr. }
  destruct (String.eqb_spec (py_str (Some (CInt z))) "1") as [E | Hne].
  - rewrite E in Hr. injection Hr as <-. reflexivity.
  - cbn [py_int]. destruct (Z.eqb_spec z 1) as [-> | _]; [| reflexivity].
    now contradiction Hne.
Qed.

Lemma stock_count_int_cell_witness :
  stock_count [("Код", CStr "A"); ("Количество", CInt 15)] = Ok 15%Z /\
  stock_count [("Код", CStr "B"); ("Количество", CInt 1)] = Ok 0%Z /\
  stock_count [("Код", CStr "C"); ("Количество", CInt (-2))] = Ok (-2)%Z.
Proof.
  split; [| split].
  - apply (stock_count_int_cell [("Код", CStr "A"); ("Количество", CInt 15)] 15).
    reflexivity.
  - apply (stock_count_int_cell [("Код", CStr "B"); ("Количество", CInt 1)] 1).
    reflexivity.
  - apply (stock_count_int_cell [("Код", CStr "C"); ("Количество", CInt (-2))] (-2)).
    reflexivity.
Defined.


Lemma before_first_dot_all_digits (d : string) :
  all_digits d = true -> before_first_dot d = d.
Proof.
  induction d as [| c d IH]; cbn; [reflexivity |].
  intros H. apply andb_prop in H as [Hc Hd].
  destruct (Ascii.eqb_spec c ".") as [-> | _]; [discriminate |].
  now rewrite (IH Hd).
Qed.

Lemma re_sub_all_digits (d : string) :
  all_digits d = true -> re_sub_non_digits d = d.
Proof.
  induction d as [| c d IH]; cbn; [reflexivity |].
  intros H. apply andb_prop in H as [Hc Hd]. now rewrite Hc, (IH Hd).
Qed.




(** X21.  [price_conversion] on its own result.  Whatever the price, when
    [price_conversion] returns a string, [price_conversion] of that
    string returns it unchanged. *)
Theorem price_conversion_idempotent :
  forall (price : option cell) (digits : string),
    price_conversion price = Ok digits ->
    price_conversion (Some (CStr digits)) = Ok digits.
Proof.
  intros price digits H.
  destruct price as [[s | z] |]; try discriminate H.
  rewrite price_conversion_str in H. injection H as <-.
  rewrite price_conversion_str.
  pose proof (all_digits_re_sub (before_first_dot s)) as Hd.
  now rewrite (before_first_dot_all_digits _ Hd), (re_sub_all_digits _ Hd).
Qed.

Lemma price_conversion_idempotent_witness :
  price_conversion (Some (CStr "5990")) = Ok "5990".
Proof.
  apply (price_conversion_idempotent (Some (CStr "5'990.00 руб."))).
  reflexivity.
Defined.

(** ** What [upload_stocks] returns *)




(** ** Sanity checks of the pagination model *)

Example py_chars_utf8 : py_chars "aб." = ["a"; "б"; "."].
Proof. reflexivity. Qed.

Example py_iter_dict :
  py_iter (Some (JDict [("items", JList []); ("total", JInt 0)]))
  = Ok [JStr "items"; JStr "total"].
Proof. reflexivity. Qed.

(** An empty shop, seller.py: one request, no id. *)
Example seller_get_offer_ids_empty_shop :
  SellerCatalogue.get_offer_ids 1 (scripted [SellerCatalogue.reply [] 0 ""])
                                "client" "token"
  = ([Some (JStr "")], Some (Ok [])).
Proof. reflexivity. Qed.

(** A reply without ["result"]: [None.get] raises. *)
Example seller_get_offer_ids_no_result :
  SellerCatalogue.get_offer_ids 3 (scripted [None]) "client" "token"
  = ([Some (JStr "")], Some (Raise (Exn AttributeError "get"))).
Proof. reflexivity. Qed.
